(** * A shallow embedding of [sync_notion_with_ai.py]

    The script synchronises a Notion page with a pull request: it picks the
    page from the branch prefix, reads the page, asks a text service for the
    merged markdown, converts the markdown to blocks and replaces the page,
    then records the pull request in a tracking database.

    Python [str] values are sequences of Unicode code points and are modelled
    as lists of code points.  Calls that leave the process are modelled by a
    script of replies consumed in order, with a log of the exchanges. *)

From Stdlib Require Import NArith String Ascii Lia.
From stdpp Require Import base option list gmap.

(** ** Strings *)

Abbreviation codepoint := N (only parsing).
Abbreviation pystr := (list N) (only parsing).

(** An ASCII literal of the source as a Python string. *)
Definition py (s : string) : pystr := map N_of_ascii (list_ascii_of_string s).

Module Chr.
Definition newline : codepoint := 10%N.
Definition hyphen : codepoint := 45%N.
Definition dot : codepoint := 46%N.
Definition slash : codepoint := 47%N.
Definition underscore : codepoint := 95%N.
Definition capital_T : codepoint := 84%N.
(** LATIN CAPITAL LETTER I WITH DOT ABOVE and its two-code-point lowercase
    form (LATIN SMALL LETTER I, COMBINING DOT ABOVE). *)
Definition capital_I_dot : codepoint := 0x130%N.
Definition small_i : codepoint := 0x69%N.
Definition combining_dot : codepoint := 0x307%N.
End Chr.

Definition in_range (lo hi c : codepoint) : bool := (lo <=? c)%N && (c <=? hi)%N.
Arguments in_range (lo hi c)%_N.

Definition is_ascii (c : codepoint) : bool := (c <? 128)%N.
Definition is_ascii_digit (c : codepoint) : bool := in_range 48 57 c.
Definition is_ascii_upper (c : codepoint) : bool := in_range 65 90 c.
Definition is_ascii_lower (c : codepoint) : bool := in_range 97 122 c.

(** [str.isspace] on one code point; it is also the regular expression class
    [\s] of a [str] pattern. *)
Definition Py_UNICODE_ISSPACE (c : codepoint) : bool :=
  in_range 0x09 0x0D c || in_range 0x1C 0x20 c
  || (c =? 0x85)%N || (c =? 0xA0)%N || (c =? 0x1680)%N
  || in_range 0x2000 0x200A c
  || (c =? 0x2028)%N || (c =? 0x2029)%N || (c =? 0x202F)%N
  || (c =? 0x205F)%N || (c =? 0x3000)%N.

Definition ascii_lower (c : codepoint) : codepoint :=
  if is_ascii_upper c then (c + 32)%N else c.

Inductive exn : Type :=
  | ValueError (msg : pystr)
  | KeyError (key : pystr)
  | TypeError
  | HTTPError (status : N)
  | ConnectionError
  | APIError
  | NoReply.

Inductive result (A : Type) : Type :=
  | Ok (a : A)
  | Raise (e : exn).
Arguments Ok {A} a.
Arguments Raise {A} e.

(** A value used as a condition: [None] and the empty string are false. *)
Definition truthy (s : option pystr) : bool :=
  match s with
  | Some (_ :: _) => true
  | _ => false
  end.

(** [s.startswith(p)] *)
Fixpoint startswith (p s : pystr) : bool :=
  match p, s with
  | [], _ => true
  | a :: p', b :: s' => (a =? b)%N && startswith p' s'
  | _ :: _, [] => false
  end.

(** [s.rstrip()]: trailing white space removed. *)
Fixpoint rstrip (s : pystr) : pystr :=
  match s with
  | [] => []
  | c :: t =>
      match rstrip t with
      | [] => if Py_UNICODE_ISSPACE c then [] else [c]
      | t' => c :: t'
      end
  end.

(** [s.strip()] used as a condition: some code point is not white space. *)
Definition strip_truthy (s : pystr) : bool :=
  existsb (fun c => negb (Py_UNICODE_ISSPACE c)) s.

(** [s.split("\n")] *)
Fixpoint split_lines (s : pystr) : list pystr :=
  match s with
  | [] => [[]]
  | c :: t =>
      if (c =? Chr.newline)%N then [] :: split_lines t
      else match split_lines t with
           | l :: ls => (c :: l) :: ls
           | [] => [[c]]
           end
  end.

(** ["\n".join(parts)] *)
Fixpoint join_lines (parts : list pystr) : pystr :=
  match parts with
  | [] => []
  | [l] => l
  | l :: ls => l ++ Chr.newline :: join_lines ls
  end.

(** [s.replace("-", "")] *)
Definition remove_hyphens (s : pystr) : pystr :=
  filter (fun c => c ≠ Chr.hyphen) s.

(** [s[a:b]] for [0 <= a <= b]. *)
Definition slice (a b : nat) (s : pystr) : pystr := take (b - a) (drop a s).

(** [s.split("T")[0]] *)
Fixpoint before_T (s : pystr) : pystr :=
  match s with
  | [] => []
  | c :: t => if (c =? Chr.capital_T)%N then [] else c :: before_T t
  end.

(** ** Anchored regular expressions, greedy with backtracking

    Each combinator takes the continuation that matches the rest of the
    pattern.  [re_star cls k] tries the longest run first and gives back one
    code point at a time until [k] matches. *)

Section Regex.
Context {A : Type}.

Fixpoint re_star (cls : codepoint -> bool) (k : pystr -> option A)
    (s : pystr) : option (pystr * A) :=
  match s with
  | c :: t =>
      if cls c then
        match re_star cls k t with
        | Some (run, a) => Some (c :: run, a)
        | None => option_map (pair []) (k s)
        end
      else option_map (pair []) (k s)
  | [] => option_map (pair []) (k s)
  end.

Definition re_plus (cls : codepoint -> bool) (k : pystr -> option A)
    (s : pystr) : option (pystr * A) :=
  match s with
  | c :: t =>
      if cls c then
        match re_star cls k t with
        | Some (run, a) => Some (c :: run, a)
        | None => None
        end
      else None
  | [] => None
  end.

Definition re_one (cls : codepoint -> bool) (k : pystr -> option A)
    (s : pystr) : option A :=
  match s with
  | c :: t => if cls c then k t else None
  | [] => None
  end.
End Regex.

Section Unicode.

(** The Unicode tables of the interpreter, outside ASCII, are parameters:
    which code points are decimal digits, and the lowercase mapping of the
    code points that lowercase to one code point, which sees the code points
    before (nearest first) and after (for the final sigma). *)
Variable unicode_decimal : codepoint -> bool.
Variable unicode_tolower : pystr -> pystr -> codepoint -> codepoint.

(** The class [\d] of a [str] pattern. *)
Definition Py_UNICODE_ISDECIMAL (c : codepoint) : bool :=
  if is_ascii c then is_ascii_digit c else unicode_decimal c.

(** The lowercase form of one code point of a string.  In the Unicode
    tables U+0130 is the one code point whose lowercase form is longer than
    itself: it becomes U+0069 U+0307. *)
Definition lower_at (before_rev after : pystr) (c : codepoint) : pystr :=
  if is_ascii c then [ascii_lower c]
  else if (c =? Chr.capital_I_dot)%N then [Chr.small_i; Chr.combining_dot]
  else [unicode_tolower before_rev after c].

Fixpoint lower_from (before_rev s : pystr) : pystr :=
  match s with
  | [] => []
  | c :: t => lower_at before_rev t c ++ lower_from (c :: before_rev) t
  end.

(** [s.lower()] *)
Definition lower (s : pystr) : pystr := lower_from [] s.

(** ** Prefix router *)

(** The class [[a-zA-Z0-9_-]]. *)
Definition prefix_char (c : codepoint) : bool :=
  is_ascii_lower c || is_ascii_upper c || is_ascii_digit c
  || (c =? Chr.underscore)%N || (c =? Chr.hyphen)%N.

(** [re.match(r"^([a-zA-Z0-9_-]+)/", branch)]: group 1 when it matches. *)
Definition match_prefix (branch : pystr) : option pystr :=
  option_map fst
    (re_plus prefix_char
       (re_one (fun c => (c =? Chr.slash)%N) (fun rest => Some rest))
       branch).

Definition extract_prefix_from_branch (branch : pystr) : option pystr :=
  match match_prefix branch with
  | Some group1 => Some (lower group1)
  | None => None
  end.

(** The prefix as an f-string prints it. *)
Definition format_prefix (prefix : option pystr) : pystr :=
  match prefix with
  | Some p => p
  | None => py "None"
  end.

Definition no_mapping_message (prefix : option pystr) : pystr :=
  py "No mapping found for prefix '" ++ format_prefix prefix
    ++ py "' and no default page configured.".

Definition get_page_id_for_prefix (prefix : option pystr)
    (mapping : gmap pystr pystr) : result pystr :=
  match (if truthy prefix then mapping !! default [] prefix else None) with
  | Some page => Ok page
  | None =>
      match mapping !! py "default" with
      | Some page => Ok page
      | None => Raise (ValueError (no_mapping_message prefix))
      end
  end.

(** ** Page identifier normaliser *)

Definition dashed (clean_id : pystr) : pystr :=
  slice 0 8 clean_id ++ Chr.hyphen
    :: slice 8 12 clean_id ++ Chr.hyphen
    :: slice 12 16 clean_id ++ Chr.hyphen
    :: slice 16 20 clean_id ++ Chr.hyphen
    :: slice 20 32 clean_id.

Definition format_page_id (page_id : pystr) : result pystr :=
  let clean_id := lower (remove_hyphens page_id) in
  if bool_decide (length clean_id ≠ 32) then
    Raise (ValueError (py "Invalid page ID length: " ++ page_id))
  else Ok (dashed clean_id).

(** ** Blocks *)

Inductive block_type : Type :=
  | heading_1
  | heading_2
  | heading_3
  | bulleted_list_item
  | numbered_list_item
  | paragraph.

Definition type_name (t : block_type) : pystr :=
  match t with
  | heading_1 => py "heading_1"
  | heading_2 => py "heading_2"
  | heading_3 => py "heading_3"
  | bulleted_list_item => py "bulleted_list_item"
  | numbered_list_item => py "numbered_list_item"
  | paragraph => py "paragraph"
  end.

(** A block as the converter builds it:
    [{"object": "block", "type": T, T: {"rich_text": [{"type": "text",
    "text": {"content": C}}]}}]. *)
Record block : Type := Block { b_type : block_type; b_content : pystr }.

(** A block as the store lists it, seen through the reads of the script:
    [block["id"]], [block.get("type")], and the [plain_text] of each run of
    [block.get(type, {}).get("rich_text", [])] ([None]: the key is
    missing). *)
Record listed_block : Type := Listed {
  lb_id : option pystr;
  lb_type : option pystr;
  lb_rich_text : list (option pystr)
}.

(** The store's view of a block it was given: one text run whose plain text
    is the content.  The identifier is the store's choice. *)
Definition stored (id : option pystr) (b : block) : listed_block :=
  Listed id (Some (type_name (b_type b))) [Some (b_content b)].

(** ** Markdown-to-block converter *)

(** The bulleted-item marker, the same literal in the reader and in the
    converter.  The source file holds it as the bytes E2 80 9A, C3 84, C2 A2
    and 20, which the interpreter reads as UTF-8: the four code points
    U+201A, U+00C4, U+00A2 and a space. *)
Definition bullet_marker : pystr := [0x201A; 0xC4; 0xA2; 0x20]%N.

(** [re.match(r"^\d+\.\s", line)]: what follows the match, which is
    [re.sub(r"^\d+\.\s", "", line)]. *)
Definition match_numbered (line : pystr) : option pystr :=
  option_map snd
    (re_plus Py_UNICODE_ISDECIMAL
       (re_one (fun c => (c =? Chr.dot)%N)
          (re_one Py_UNICODE_ISSPACE (fun rest => Some rest)))
       line).

(** The body of the loop for one line, after [rstrip]. *)
Definition line_to_block (line : pystr) : option block :=
  if bool_decide (line = []) then None
  else if startswith (py "# ") line then
    Some (Block heading_1 (drop 2 line))
  else if startswith (py "## ") line then
    Some (Block heading_2 (drop 3 line))
  else if startswith (py "### ") line then
    Some (Block heading_3 (drop 4 line))
  else if startswith (py "- ") line || startswith bullet_marker line then
    Some (Block bulleted_list_item (drop 2 line))
  else match match_numbered line with
       | Some content => Some (Block numbered_list_item content)
       | None => Some (Block paragraph line)
       end.

Definition markdown_to_notion_blocks (markdown : pystr) : list block :=
  omap (fun line => line_to_block (rstrip line)) (split_lines markdown).

(** ** Content reader: rendering *)

(** One block of the rendering loop: the line it adds, if any. *)
Definition render_block (b : listed_block) : option pystr :=
  if truthy (lb_type b) then
    let block_type := default [] (lb_type b) in
    match lb_rich_text b with
    | [] => None
    | rich_text =>
        let text := concat (map (default []) rich_text) in
        Some (if bool_decide (block_type = py "heading_1") then
                py "# " ++ text
              else if bool_decide (block_type = py "heading_2") then
                py "## " ++ text
              else if bool_decide (block_type = py "heading_3") then
                py "### " ++ text
              else if bool_decide (block_type = py "bulleted_list_item") then
                bullet_marker ++ text
              else if bool_decide (block_type = py "numbered_list_item") then
                py "1. " ++ text
              else text)
    end
  else None.

Definition render_blocks (blocks : list listed_block) : pystr :=
  join_lines (omap render_block blocks).

(** ** The outside world *)

Record pr_info : Type := PrInfo {
  pr_title : pystr;
  pr_body : pystr;
  pr_url : pystr;
  pr_number : N;
  pr_repo : pystr;
  pr_author : pystr;
  pr_branch : pystr;
  pr_created_at : pystr;
  pr_updated_at : pystr
}.

(** The properties of a tracking row. *)
Record tracking_row : Type := TrackingRow {
  row_title : pystr;
  row_author : pystr;
  row_date : pystr;
  row_prefix : pystr;
  row_link : pystr
}.

(** The calls the script makes, with the parts of each that vary. *)
Inductive request : Type :=
  | GetChildren (page_id : pystr) (page_size : option N)
      (start_cursor : option pystr)
  | DeleteBlock (block_id : pystr)
  | PatchChildren (page_id : pystr) (children : list block)
  | QueryDatabase (database_id : pystr) (link_equals : pystr) (page_size : N)
  | CreatePage (database_id : pystr) (properties : tracking_row)
  | ChatCompletion (existing_content : pystr) (pr : pr_info)
      (description : pystr).

(** The body of a reply, seen through the reads of the script:
    [.get("results", [])], [.get("has_more", False)],
    [.get("next_cursor")], [["id"]], and the text of the first choice of a
    completion. *)
Record body : Type := Body {
  results : list listed_block;
  has_more : bool;
  next_cursor : option pystr;
  body_id : option pystr;
  completion : option pystr
}.

Inductive reply : Type :=
  | NetworkError
  | Http (status : N) (data : body).

Record world : Type := World {
  script : list reply;
  log : list (request * reply)
}.

(** A computation reads and extends the world and returns or raises. *)
Definition M (A : Type) : Type := world -> result A * world.

Definition ret {A : Type} (a : A) : M A := fun w => (Ok a, w).
Definition raise {A : Type} (e : exn) : M A := fun w => (Raise e, w).
Definition bind {A B : Type} (m : M A) (f : A -> M B) : M B :=
  fun w =>
    match m w with
    | (Ok a, w') => f a w'
    | (Raise e, w') => (Raise e, w')
    end.
Definition lift {A : Type} (r : result A) : M A := fun w => (r, w).

Notation "'let*' x ':=' m 'in' k" := (bind m (fun x => k))
  (at level 10, x name, m at level 100, k at level 200).
Notation "m >> k" := (bind m (fun _ => k))
  (at level 100, k at level 200, right associativity).

(** One call: the next reply of the script answers it.  A network failure
    raises in the call itself; a reply with any status is returned. *)
Definition http (req : request) : M (N * body) :=
  fun w =>
    match script w with
    | [] => (Raise NoReply, w)
    | r :: rest =>
        let w' := World rest (log w ++ [(req, r)]) in
        match r with
        | NetworkError => (Raise ConnectionError, w')
        | Http status data => (Ok (status, data), w')
        end
    end.

(** [r.raise_for_status()] *)
Definition raise_for_status (r : N * body) : M unit :=
  if in_range 400 599 (fst r) then raise (HTTPError (fst r)) else ret tt.

(** A [for] loop over a list. *)
Fixpoint for_each {A : Type} (f : A -> M unit) (l : list A) : M unit :=
  match l with
  | [] => ret tt
  | a :: l' => f a >> for_each f l'
  end.

(** ** Content reader *)

(** The [while has_more] loop, by recursion on the replies still to come;
    each turn takes one. *)
Fixpoint read_pages (page_id : pystr) (start_cursor : option pystr)
    (blocks : list listed_block) (pending : list reply)
    (lg : list (request * reply)) : result (list listed_block) * world :=
  match pending with
  | [] => (Raise NoReply, World [] lg)
  | r :: rest =>
      let params :=
        GetChildren page_id (Some 100%N)
          (if truthy start_cursor then start_cursor else None) in
      let lg' := lg ++ [(params, r)] in
      match r with
      | NetworkError => (Raise ConnectionError, World rest lg')
      | Http status data =>
          if in_range 400 599 status then
            (Raise (HTTPError status), World rest lg')
          else
            let blocks' := blocks ++ results data in
            if has_more data then
              read_pages page_id (next_cursor data) blocks' rest lg'
            else (Ok blocks', World rest lg')
      end
  end.

Definition get_page_blocks (page_id : pystr) : M (list listed_block) :=
  fun w => read_pages page_id None [] (script w) (log w).

Definition get_notion_page_content (page_id : pystr) : M pystr :=
  let* blocks := get_page_blocks page_id in
  ret (render_blocks blocks).

(** ** Synthesis client *)

(** The client of the text service is built with its defaults: a call that
    fails is sent again, up to [max_retries] times, when the connection
    failed or the status is 408, 409, 429 or at least 500; any other status
    outside 200..299 raises at once. *)
Definition max_retries : nat := 2.

Definition should_retry (status : N) : bool :=
  (status =? 408)%N || (status =? 409)%N || (status =? 429)%N
  || (500 <=? status)%N.

(** [openai_client.chat.completions.create(...)] and the read of
    [choices[0].message.content], which may be [None]: every attempt takes
    one reply and is logged. *)
Fixpoint chat_completion (retries : nat) (prompt : request)
    (pending : list reply) (lg : list (request * reply)) {struct pending}
    : result (option pystr) * world :=
  match pending with
  | [] => (Raise NoReply, World [] lg)
  | r :: rest =>
      let lg' := lg ++ [(prompt, r)] in
      let again :=
        match retries with
        | S retries' => chat_completion retries' prompt rest lg'
        | O => (Raise APIError, World rest lg')
        end in
      match r with
      | NetworkError => again
      | Http status data =>
          if in_range 200 299 status then (Ok (completion data), World rest lg')
          else if should_retry status then again
          else (Raise APIError, World rest lg')
      end
  end.

Definition synthesize_with_openai (existing_content : pystr) (pr : pr_info)
    : M (option pystr) :=
  fun w =>
    let prompt :=
      ChatCompletion
        (if strip_truthy existing_content then existing_content
         else py "(Page is currently empty)")
        pr
        (if strip_truthy (pr_body pr) then pr_body pr
         else py "(No description provided)") in
    chat_completion max_retries prompt (script w) (log w).

(** ** Page updater *)

Definition block_id (b : listed_block) : M pystr :=
  match lb_id b with
  | Some id => ret id
  | None => raise (KeyError (py "id"))
  end.

(** The body of the loop of [delete_all_blocks]: the reply to the delete
    request is dropped. *)
Definition delete_one (b : listed_block) : M unit :=
  let* id := block_id b in
  let* _ := http (DeleteBlock id) in
  ret tt.

Definition delete_all_blocks (page_id : pystr) : M unit :=
  let* r := http (GetChildren page_id None None) in
  raise_for_status r >>
  for_each delete_one (results (snd r)).

(** [range(0, stop, step)] *)
Definition range0 (stop step : nat) : list nat :=
  map (fun k => k * step) (seq 0 ((stop + step - 1) / step)).

Definition batch_size : nat := 100.

Definition batches (new_blocks : list block) : list (list block) :=
  map (fun i => take batch_size (drop i new_blocks))
    (range0 (length new_blocks) batch_size).

(** The body of the loop of [update_notion_page]. *)
Definition patch_one (page_id : pystr) (batch : list block) : M unit :=
  let* r := http (PatchChildren page_id batch) in
  raise_for_status r.

Definition update_notion_page (page_id : pystr) (new_blocks : list block)
    : M unit :=
  delete_all_blocks page_id >>
  for_each (patch_one page_id) (batches new_blocks).

(** ** Tracker *)

Definition add_pr_to_database (database_id : pystr) (pr : pr_info)
    (prefix : option pystr) : M pystr :=
  let created_date := before_T (pr_created_at pr) in
  let properties :=
    TrackingRow (pr_title pr) (pr_author pr) created_date
      (if truthy prefix then default [] prefix else py "none")
      (pr_url pr) in
  let* r := http (CreatePage database_id properties) in
  raise_for_status r >>
  match body_id (snd r) with
  | Some id => ret id
  | None => raise (KeyError (py "id"))
  end.

Definition check_pr_exists_in_database (database_id pr_url : pystr)
    : M bool :=
  let* r := http (QueryDatabase database_id pr_url 1) in
  raise_for_status r >>
  ret (0 <? length (results (snd r))).

(** ** Orchestrator *)

(** What [main] loads before its first call: the mapping file, the event
    file and the environment. *)
Record config : Type := Config {
  page_mapping : gmap pystr pystr;
  event : pr_info;
  PR_DATABASE_ID : option pystr
}.

(** [len(synthesized_content)] in the progress line of [main]: a type error
    when the content is [None]. *)
Definition checked_len (content : option pystr) : M pystr :=
  match content with
  | Some text => ret text
  | None => raise TypeError
  end.

Definition main (cfg : config) : M unit :=
  let pr := event cfg in
  let prefix := extract_prefix_from_branch (pr_branch pr) in
  let* page_id := lift (get_page_id_for_prefix prefix (page_mapping cfg)) in
  let* page_id := lift (format_page_id page_id) in
  let* existing_content := get_notion_page_content page_id in
  let* synthesized_content := synthesize_with_openai existing_content pr in
  let* synthesized_content := checked_len synthesized_content in
  let new_blocks := markdown_to_notion_blocks synthesized_content in
  update_notion_page page_id new_blocks >>
  if truthy (PR_DATABASE_ID cfg) then
    let database_id := default [] (PR_DATABASE_ID cfg) in
    let* found := check_pr_exists_in_database database_id (pr_url pr) in
    if found then ret tt
    else let* _ := add_pr_to_database database_id pr prefix in ret tt
  else ret tt.

End Unicode.

(** * The two numeric utilities

    Python integers are unbounded and modelled by [Z]. *)

(** ** [is_prime.py] *)

(** The [while i * i <= n] loop of [is_prime], by recursion on a bound of the
    number of its turns: [i] grows by 2 at each turn and stays below [n], so
    [n] turns are more than the loop ever takes, and the value given when the
    bound runs out is never reached (see [is_prime_loop_spec]). *)
Fixpoint is_prime_loop (fuel : nat) (n i : Z) : bool :=
  match fuel with
  | O => true
  | S fuel' =>
      if (i * i <=? n)%Z then
        if (n mod i =? 0)%Z then false else is_prime_loop fuel' n (i + 2)%Z
      else true
  end.

Definition is_prime (n : Z) : bool :=
  if (n <? 2)%Z then false
  else if (n =? 2)%Z then true
  else if (n mod 2 =? 0)%Z then false
  else is_prime_loop (Z.to_nat n) n 3%Z.

(** ** [fizzbuzz.py] *)

(** An entry of the list [fizzbuzz] returns: a string or an integer. *)
Inductive fizz_item : Type :=
  | Word (s : pystr)
  | Number (i : Z).

(** The body of the loop of [fizzbuzz]. *)
Definition fizzbuzz_item (i : Z) : fizz_item :=
  if (i mod 15 =? 0)%Z then Word (py "FizzBuzz")
  else if (i mod 3 =? 0)%Z then Word (py "Fizz")
  else if (i mod 5 =? 0)%Z then Word (py "Buzz")
  else Number i.

(** [range(1, n + 1)] is [seqZ 1 n]: empty when [n] is not positive. *)
Definition fizzbuzz (n : Z) : list fizz_item := map fizzbuzz_item (seqZ 1 n).

(** ** Vocabulary of the statements *)

(** The longest leading run of code points of a class. *)
Fixpoint leading_run (cls : codepoint -> bool) (s : pystr) : pystr :=
  match s with
  | c :: t => if cls c then c :: leading_run cls t else []
  | [] => []
  end.

(** A hexadecimal digit, of either case. *)
Definition is_hex (c : codepoint) : bool :=
  is_ascii_digit c || in_range 97 102 c || in_range 65 70 c.

(** How many times U+0130 occurs. *)
Definition count_I_dot (s : pystr) : nat :=
  length (filter (fun c => c = Chr.capital_I_dot) s).





(** The line the reader renders for a block of the converter that the store
    lists back. *)
Definition rendered_line (b : block) : pystr :=
  match b_type b with
  | heading_1 => py "# "
  | heading_2 => py "## "
  | heading_3 => py "### "
  | bulleted_list_item => bullet_marker
  | numbered_list_item => py "1. "
  | paragraph => []
  end ++ b_content b.

(** A line as the converter sees it: not empty, without a line feed, and
    without trailing white space. *)
Definition clean_line (l : pystr) : Prop :=
  l ≠ [] /\ rstrip l = l /\ Forall (fun c => c ≠ Chr.newline) l.

(** The block a line adds to a page that is rendered and converted again:
    a bulleted item comes back with the last two code points of the marker
    in front of its text, any other block as it was. *)
Definition reread (b : block) : block :=
  match b_type b with
  | bulleted_list_item =>
      Block bulleted_list_item (drop 2 bullet_marker ++ b_content b)
  | _ => b
  end.

(** The listing requests of the reader for a sequence of pages: 100 blocks a
    page, and the cursor of the page before when it has one. *)
Fixpoint cursor_requests (page_id : pystr) (start_cursor : option pystr)
    (pages : list (N * body)) : list request :=
  match pages with
  | [] => []
  | p :: ps =>
      GetChildren page_id (Some 100%N)
        (if truthy start_cursor then start_cursor else None)
      :: cursor_requests page_id (next_cursor (snd p)) ps
  end.

Definition reply_of (p : N * body) : reply := Http (fst p) (snd p).

(** The insert of a tracking row. *)
Definition is_insert (r : request) : bool :=
  match r with
  | CreatePage _ _ => true
  | _ => false
  end.

(** The two calls of the tracker. *)
Definition is_tracker_request (r : request) : bool :=
  match r with
  | QueryDatabase _ _ _ | CreatePage _ _ => true
  | _ => false
  end.

(** A computation adds to the log only exchanges whose request satisfies
    [Q]. *)
Definition extends {A : Type} (Q : request -> Prop) (m : M A) : Prop :=
  forall w : world,
    exists issued : list (request * reply),
      log (snd (m w)) = log w ++ issued /\ Forall (fun e => Q (fst e)) issued.

(** The exchanges of the tracker in one run: none; or the existence check
    alone; or the existence check, answered without an error status and with
    no row, and then the insert of a row with the same link. *)
Definition tracker_exchanges (url : pystr)
    (tracker : list (request * reply)) : Prop :=
  tracker = []
  \/ (exists (db : pystr) (rp : reply),
        tracker = [(QueryDatabase db url 1, rp)])
  \/ (exists (db : pystr) (st : N) (data : body) (row : tracking_row)
         (rp : reply),
        tracker = [(QueryDatabase db url 1, Http st data);
                   (CreatePage db row, rp)]
        /\ in_range 400 599 st = false /\ results data = []
        /\ row_link row = url).

(** A computation adds to the log exchanges that are not the tracker's and
    then the exchanges of the tracker. *)
Definition tracked {A : Type} (url : pystr) (m : M A) : Prop :=
  forall w : world,
    exists before tracker : list (request * reply),
      log (snd (m w)) = log w ++ before ++ tracker
      /\ Forall (fun e => is_tracker_request (fst e) = false) before
      /\ tracker_exchanges url tracker.

(** A listing request of the reader: it carries a page size. *)
Definition is_paged_listing (r : request) : bool :=
  match r with
  | GetChildren _ (Some _) _ => true
  | _ => false
  end.

(** A request of a run is aimed at the page [pid], at the configured
    tracking database and at the pull request of the event. *)
Definition targets (cfg : config) (pid : pystr) (r : request) : Prop :=
  match r with
  | GetChildren p _ _ | PatchChildren p _ => p = pid
  | DeleteBlock _ => True
  | ChatCompletion _ pr _ => pr = event cfg
  | QueryDatabase db url n =>
      PR_DATABASE_ID cfg = Some db /\ db ≠ [] /\ url = pr_url (event cfg)
      /\ n = 1%N
  | CreatePage db row =>
      PR_DATABASE_ID cfg = Some db /\ db ≠ []
      /\ row_link row = pr_url (event cfg)
  end.

(** A call of the text service. *)
Definition is_chat (r : request) : bool :=
  match r with
  | ChatCompletion _ _ _ => true
  | _ => false
  end.

(** The exchanges of a run up to and after the calls of the text service:
    listing requests of the reader, then the attempts of the call -- no more
    than one and [max_retries] -- and then anything else, which is there only
    when the last attempt was answered with a status in 200..299 and a
    text. *)
Definition guarded_by_synthesis (issued : list (request * reply)) : Prop :=
  exists reads chats more : list (request * reply),
    issued = reads ++ chats ++ more
    /\ Forall (fun e => is_paged_listing (fst e) = true) reads
    /\ Forall (fun e => is_chat (fst e) = true) chats
    /\ length chats <= S max_retries
    /\ (more ≠ [] ->
        exists (c : pystr) (pr : pr_info) (d : pystr) (st : N) (data : body)
          (text : pystr),
          last chats = Some (ChatCompletion c pr d, Http st data)
          /\ in_range 200 299 st = true /\ completion data = Some text).

(** Tables that know no decimal digit and no cased letter outside ASCII, to
    run the definitions on ASCII inputs. *)
Definition ascii_decimal_only : codepoint -> bool := fun _ => false.
Definition ascii_tolower_only : pystr -> pystr -> codepoint -> codepoint :=
  fun _ _ c => c.

(** * Properties *)

(** ** Strings and regular expressions *)

Lemma leading_run_app (cls : codepoint -> bool) (s : pystr) :
  leading_run cls s ++ drop (length (leading_run cls s)) s = s.
Proof.
  induction s as [|c t IH]; simpl; [done|].
  destruct (cls c); simpl; [by rewrite IH | done].
Qed.

Lemma leading_run_Forall (cls : codepoint -> bool) (s : pystr) :
  Forall (fun c => cls c = true) (leading_run cls s).
Proof.
  induction s as [|c t IH]; simpl; [constructor|].
  destruct (cls c) eqn:E; [by constructor | constructor].
Qed.

(** A greedy run followed by one code point outside the class never has to
    give anything back: it matches exactly when the continuation matches
    right after the longest run. *)
Lemma re_star_one {A : Type} (cls p : codepoint -> bool)
    (k : pystr -> option A) (s : pystr) :
  (forall c, cls c = true -> p c = false) ->
  re_star cls (re_one p k) s =
    option_map (pair (leading_run cls s))
      (re_one p k (drop (length (leading_run cls s)) s)).
Proof.
  intros Hdisj. induction s as [|c t IH]; simpl; [done|].
  destruct (cls c) eqn:Hc; simpl; [|done].
  rewrite IH.
  destruct (re_one p k (drop (length (leading_run cls t)) t)); simpl; [done|].
  by rewrite (Hdisj c Hc).
Qed.

Lemma re_plus_one {A : Type} (cls p : codepoint -> bool)
    (k : pystr -> option A) (s : pystr) :
  (forall c, cls c = true -> p c = false) ->
  re_plus cls (re_one p k) s =
    if bool_decide (leading_run cls s = []) then None
    else option_map (pair (leading_run cls s))
           (re_one p k (drop (length (leading_run cls s)) s)).
Proof.
  intros Hdisj. destruct s as [|c t]; simpl; [done|].
  destruct (cls c) eqn:Hc; simpl; [|done].
  rewrite re_star_one by done.
  by destruct (re_one p k (drop (length (leading_run cls t)) t)).
Qed.

Section LowerFacts.
Variable tl : pystr -> pystr -> codepoint -> codepoint.

Lemma lower_from_ascii (before_rev s : pystr) :
  Forall (fun c => is_ascii c = true) s ->
  lower_from tl before_rev s = map ascii_lower s.
Proof.
  intros Hs. revert before_rev.
  induction Hs as [|c t Hc _ IH]; intros before_rev; simpl; [done|].
  unfold lower_at. by rewrite Hc, IH.
Qed.

Lemma lower_ascii (s : pystr) :
  Forall (fun c => is_ascii c = true) s -> lower tl s = map ascii_lower s.
Proof. apply lower_from_ascii. Qed.

Lemma lower_from_length (before_rev s : pystr) :
  length (lower_from tl before_rev s) = length s + count_I_dot s.
Proof.
  revert before_rev. unfold count_I_dot.
  induction s as [|c t IH]; intros before_rev; [done|].
  rewrite filter_cons. cbn [lower_from].
  rewrite length_app, IH. unfold lower_at.
  destruct (is_ascii c) eqn:Ha.
  - rewrite decide_False; [simpl; lia|].
    intros ->. discriminate Ha.
  - destruct (N.eqb_spec c Chr.capital_I_dot) as [->|Hne].
    + rewrite decide_True by done. simpl. lia.
    + rewrite decide_False by done. simpl. lia.
Qed.

Lemma lower_length (s : pystr) :
  length (lower tl s) = length s + count_I_dot s.
Proof. apply lower_from_length. Qed.
End LowerFacts.

Lemma prefix_char_ascii (c : codepoint) : prefix_char c = true -> is_ascii c = true.
Proof.
  unfold prefix_char, is_ascii_lower, is_ascii_upper, is_ascii_digit, in_range,
    is_ascii, Chr.underscore, Chr.hyphen.
  intros H. apply N.ltb_lt.
  repeat (apply orb_true_iff in H as [H|H]);
    repeat (apply andb_true_iff in H as [? H]);
    repeat match goal with
           | H : (_ <=? _)%N = true |- _ => apply N.leb_le in H
           | H : (_ =? _)%N = true |- _ => apply N.eqb_eq in H
           end; lia.
Qed.

Lemma prefix_char_not_slash (c : codepoint) :
  prefix_char c = true -> (c =? Chr.slash)%N = false.
Proof.
  unfold prefix_char, is_ascii_lower, is_ascii_upper, is_ascii_digit, in_range,
    Chr.underscore, Chr.hyphen, Chr.slash.
  intros H. apply N.eqb_neq.
  repeat (apply orb_true_iff in H as [H|H]);
    repeat (apply andb_true_iff in H as [? H]);
    repeat match goal with
           | H : (_ <=? _)%N = true |- _ => apply N.leb_le in H
           | H : (_ =? _)%N = true |- _ => apply N.eqb_eq in H
           end; lia.
Qed.

(** ** Prefix router *)

(** C9. For every branch name, the extracted prefix is the lowercased longest
    leading run of letters, digits, underscores and hyphens when that run is
    not empty and the code point right after it is a slash, and it is
    undefined otherwise; "feat/x" gives "feat", "BUG/Y" gives "bug" and
    "main" gives no prefix. *)
Theorem extract_prefix_from_branch_spec
    (tl : pystr -> pystr -> codepoint -> codepoint) (branch : pystr) :
  let run := leading_run prefix_char branch in
  extract_prefix_from_branch tl branch =
    (if bool_decide (run ≠ [])
        && startswith [Chr.slash] (drop (length run) branch)
     then Some (map ascii_lower run) else None)
  /\ extract_prefix_from_branch tl (py "feat/x") = Some (py "feat")
  /\ extract_prefix_from_branch tl (py "BUG/Y") = Some (py "bug")
  /\ extract_prefix_from_branch tl (py "main") = None.
Proof.
  intros run. split; [|by vm_compute].
  unfold extract_prefix_from_branch, match_prefix.
  rewrite re_plus_one by apply prefix_char_not_slash.
  fold run.
  destruct (decide (run = [])) as [E|E].
  - rewrite bool_decide_true by done.
    rewrite (bool_decide_false (run ≠ [])) by tauto. done.
  - rewrite bool_decide_false by done.
    rewrite (bool_decide_true (run ≠ [])) by done.
    destruct (drop (length run) branch) as [|c rest]; [done|].
    cbn [startswith re_one andb]. rewrite andb_true_r, (N.eqb_sym Chr.slash c).
    destruct (c =? Chr.slash)%N; [|done].
    cbn [option_map fst]. f_equal. apply lower_ascii.
    eapply Forall_impl; [apply leading_run_Forall|].
    apply prefix_char_ascii.
Qed.

(** A prefix extracted from a branch name is the lowercase of its leading
    run of prefix characters, which is not empty and is followed by a
    slash. *)
Lemma extract_prefix_Some (tl : pystr -> pystr -> codepoint -> codepoint)
    (branch p : pystr) :
  extract_prefix_from_branch tl branch = Some p ->
  exists run rest : pystr,
    branch = run ++ Chr.slash :: rest /\ run ≠ []
    /\ Forall (fun c => prefix_char c = true) run /\ p = map ascii_lower run.
Proof.
  unfold extract_prefix_from_branch, match_prefix.
  rewrite re_plus_one by apply prefix_char_not_slash.
  set (run := leading_run prefix_char branch).
  pose proof (leading_run_app prefix_char branch) as Happ. fold run in Happ.
  pose proof (leading_run_Forall prefix_char branch) as Hrun. fold run in Hrun.
  destruct (decide (run = [])) as [E|E].
  { by rewrite bool_decide_true. }
  rewrite bool_decide_false by done.
  destruct (drop (length run) branch) as [|c rest]; [done|].
  cbn [re_one]. destruct (N.eqb_spec c Chr.slash) as [->|]; [|done].
  cbn [option_map fst]. intros [= <-].
  exists run, rest. repeat split; try done.
  apply lower_ascii. eapply Forall_impl; [exact Hrun|].
  apply prefix_char_ascii.
Qed.

(** C6. The prefix is what the router hands over: undefined, or a string that
    is not empty (the last part states that the router yields nothing else).
    For every such prefix and every mapping: when the prefix is defined and
    is a key of the mapping, the resolution returns its entry; otherwise it
    returns the entry of "default" when there is one; and when there is
    neither, it fails with an error whose message names the prefix.  With
    the mapping feat -> P1, default -> P0: "feat" resolves to P1 and "chore"
    to P0; "chore" fails on a mapping with neither key. *)
Theorem get_page_id_for_prefix_resolution
    (prefix : option pystr) (mapping : gmap pystr pystr) :
  prefix ≠ Some [] ->
  let present := exists p, prefix = Some p /\ is_Some (mapping !! p) in
  (forall p page, prefix = Some p -> mapping !! p = Some page ->
     get_page_id_for_prefix prefix mapping = Ok page)
  /\ (forall page, ¬ present -> mapping !! py "default" = Some page ->
        get_page_id_for_prefix prefix mapping = Ok page)
  /\ (¬ present -> mapping !! py "default" = None ->
        get_page_id_for_prefix prefix mapping =
          Raise (ValueError (py "No mapping found for prefix '"
                              ++ format_prefix prefix
                              ++ py "' and no default page configured.")))
  /\ (let m : gmap pystr pystr :=
        <[py "feat" := py "P1"]> (<[py "default" := py "P0"]> ∅) in
      get_page_id_for_prefix (Some (py "feat")) m = Ok (py "P1")
      /\ get_page_id_for_prefix (Some (py "chore")) m = Ok (py "P0")
      /\ get_page_id_for_prefix (Some (py "chore")) (delete (py "default") m)
         = Raise (ValueError (py "No mapping found for prefix 'chore' and no default page configured.")))
  /\ (forall (tl : pystr -> pystr -> codepoint -> codepoint) (branch : pystr),
        extract_prefix_from_branch tl branch ≠ Some []).
Proof.
  intros Hprefix present.
  unfold get_page_id_for_prefix, no_mapping_message.
  assert (Hlookup :
            (if truthy prefix then mapping !! default [] prefix else None)
            = prefix ≫= (mapping !!.)).
  { destruct prefix as [[|c p]|]; done. }
  rewrite Hlookup. clear Hlookup.
  split; [|split; [|split; [|split]]].
  - intros p page -> Hm. simpl. by rewrite Hm.
  - intros page Hno Hd.
    destruct (prefix ≫= (mapping !!.)) as [page'|] eqn:Hm; [|by rewrite Hd].
    exfalso. apply Hno. destruct prefix as [p|]; [|done].
    exists p. split; [done|]. by exists page'.
  - intros Hno Hd.
    destruct (prefix ≫= (mapping !!.)) as [page'|] eqn:Hm; [|by rewrite Hd].
    exfalso. apply Hno. destruct prefix as [p|]; [|done].
    exists p. split; [done|]. by exists page'.
  - by vm_compute.
  - intros tl branch H.
    apply extract_prefix_Some in H as (run & rest & _ & Hne & _ & E).
    by destruct run.
Qed.

(** ** Page identifier normaliser *)

Lemma ascii_lower_idemp (c : codepoint) : ascii_lower (ascii_lower c) = ascii_lower c.
Proof.
  unfold ascii_lower, is_ascii_upper, in_range.
  destruct ((65 <=? c)%N && (c <=? 90)%N) eqn:E; [|by rewrite E].
  apply andb_true_iff in E as [H1%N.leb_le H2%N.leb_le].
  replace (c + 32 <=? 90)%N with false; [by rewrite andb_false_r|].
  symmetry. apply N.leb_gt. lia.
Qed.

Lemma is_hex_lower (c : codepoint) :
  is_hex c = true ->
  is_ascii c = true /\ is_ascii (ascii_lower c) = true
  /\ ascii_lower c ≠ Chr.hyphen /\ is_hex (ascii_lower c) = true.
Proof.
  unfold is_hex, is_ascii, ascii_lower, is_ascii_upper, is_ascii_digit,
    in_range, Chr.hyphen.
  intros H.
  destruct ((65 <=? c)%N && (c <=? 90)%N) eqn:E.
  - apply andb_true_iff in E as [H1%N.leb_le H2%N.leb_le].
    repeat (apply orb_true_iff in H as [H|H]);
      apply andb_true_iff in H as [H3%N.leb_le H4%N.leb_le]; try lia.
    repeat split; try (apply N.ltb_lt; lia); try lia.
    apply orb_true_iff. left. apply orb_true_iff. right.
    apply andb_true_iff. split; apply N.leb_le; lia.
  - assert (c < 128)%N.
    { repeat (apply orb_true_iff in H as [H|H]);
        apply andb_true_iff in H as [H3%N.leb_le H4%N.leb_le]; lia. }
    repeat split; try (apply N.ltb_lt; lia); [|done].
    intros ->. discriminate H.
Qed.

Lemma remove_hyphens_id (s : pystr) :
  Forall (fun c => c ≠ Chr.hyphen) s -> remove_hyphens s = s.
Proof.
  unfold remove_hyphens. induction 1 as [|c t Hc _ IH]; [done|].
  by rewrite filter_cons, decide_True, IH.
Qed.

Lemma remove_hyphens_app_hyphen (a b : pystr) :
  remove_hyphens (a ++ Chr.hyphen :: b) = remove_hyphens a ++ remove_hyphens b.
Proof.
  unfold remove_hyphens.
  rewrite filter_app, filter_cons, decide_False; [done|]. by intros H.
Qed.

Lemma remove_hyphens_no_hyphen (s : pystr) :
  Forall (fun c => c ≠ Chr.hyphen) (remove_hyphens s).
Proof.
  unfold remove_hyphens. apply Forall_forall. intros c Hc.
  by apply list_elem_of_filter in Hc as [? _].
Qed.

(** The dashed form is the clean identifier cut into pieces of 8, 4, 4, 4 and
    12 code points with a hyphen between each two. *)
Lemma dashed_pieces (clean : pystr) :
  length clean = 32 ->
  exists a b c d e : pystr,
    clean = a ++ b ++ c ++ d ++ e
    /\ length a = 8 /\ length b = 4 /\ length c = 4 /\ length d = 4
    /\ length e = 12
    /\ dashed clean =
         a ++ Chr.hyphen :: b ++ Chr.hyphen :: c ++ Chr.hyphen :: d
           ++ Chr.hyphen :: e.
Proof.
  intros Hlen.
  exists (slice 0 8 clean), (slice 8 12 clean), (slice 12 16 clean),
    (slice 16 20 clean), (slice 20 32 clean).
  unfold slice. simpl Nat.sub. rewrite drop_0.
  repeat split; try (rewrite length_take, ?length_drop; lia).
  rewrite <- (take_drop 8 clean) at 1. f_equal.
  rewrite <- (take_drop 4 (drop 8 clean)) at 1. f_equal.
  rewrite drop_drop. simpl Nat.add.
  rewrite <- (take_drop 4 (drop 12 clean)) at 1. f_equal.
  rewrite drop_drop. simpl Nat.add.
  rewrite <- (take_drop 4 (drop 16 clean)) at 1. f_equal.
  rewrite drop_drop. simpl Nat.add.
  symmetry. apply take_ge. rewrite length_drop. lia.
Qed.

Lemma remove_hyphens_dashed (clean : pystr) :
  length clean = 32 -> Forall (fun c => c ≠ Chr.hyphen) clean ->
  remove_hyphens (dashed clean) = clean.
Proof.
  intros Hlen Hno.
  destruct (dashed_pieces clean Hlen)
    as (a & b & c & d & e & Hc & _ & _ & _ & _ & _ & ->).
  rewrite Hc in Hno.
  repeat (apply Forall_app in Hno as [? Hno]).
  rewrite !remove_hyphens_app_hyphen, !remove_hyphens_id by done.
  by rewrite Hc.
Qed.

Lemma count_I_dot_remove_hyphens (s : pystr) :
  count_I_dot (remove_hyphens s) = count_I_dot s.
Proof.
  unfold count_I_dot, remove_hyphens.
  induction s as [|c t IH]; [done|].
  rewrite !filter_cons.
  destruct (decide (c ≠ Chr.hyphen)) as [Hc|Hc].
  - rewrite filter_cons. destruct (decide (c = Chr.capital_I_dot)); simpl; by rewrite IH.
  - apply dec_stable in Hc. subst c. rewrite decide_False by done. apply IH.
Qed.

Lemma format_page_id_cases
    (tl : pystr -> pystr -> codepoint -> codepoint) (x : pystr) :
  (length (remove_hyphens x) + count_I_dot x ≠ 32
   /\ format_page_id tl x
      = Raise (ValueError (py "Invalid page ID length: " ++ x)))
  \/ (length (remove_hyphens x) + count_I_dot x = 32
      /\ format_page_id tl x = Ok (dashed (lower tl (remove_hyphens x)))).
Proof.
  unfold format_page_id.
  rewrite lower_length, count_I_dot_remove_hyphens.
  destruct (decide (length (remove_hyphens x) + count_I_dot x = 32)) as [E|E].
  - right. rewrite bool_decide_false by tauto. done.
  - left. rewrite bool_decide_true by done. done.
Qed.

(** C5, as the code has it. An input [x] whose hyphen-stripped form is 32
    hexadecimal digits normalises to the lowercased digits cut 8-4-4-4-12
    with hyphens at offsets 8, 12, 16 and 20, and normalising the result
    gives it back.  An input [y] for which the hyphen-stripped length plus the
    number of its U+0130 code points, which is the length of its
    hyphen-stripped lowercase form, is not 32 fails with the length error. *)
Theorem format_page_id_idempotent
    (tl : pystr -> pystr -> codepoint -> codepoint) (x y : pystr) :
  length (remove_hyphens x) = 32 ->
  Forall (fun c => is_hex c = true) (remove_hyphens x) ->
  length (remove_hyphens y) + count_I_dot y ≠ 32 ->
  let clean := map ascii_lower (remove_hyphens x) in
  format_page_id tl x = Ok (dashed clean)
  /\ format_page_id tl (dashed clean) = Ok (dashed clean)
  /\ (exists a b c d e : pystr,
        clean = a ++ b ++ c ++ d ++ e
        /\ length a = 8 /\ length b = 4 /\ length c = 4 /\ length d = 4
        /\ length e = 12
        /\ dashed clean =
             a ++ Chr.hyphen :: b ++ Chr.hyphen :: c ++ Chr.hyphen :: d
               ++ Chr.hyphen :: e)
  /\ format_page_id tl y
     = Raise (ValueError (py "Invalid page ID length: " ++ y)).
Proof.
  intros Hlen Hhex Hy clean.
  assert (Hclean_len : length clean = 32).
  { unfold clean. by rewrite length_map. }
  assert (Hascii : Forall (fun c => is_ascii c = true) (remove_hyphens x)).
  { eapply Forall_impl; [exact Hhex|]. intros c Hc. by apply is_hex_lower. }
  assert (Hclean_ascii : Forall (fun c => is_ascii c = true) clean).
  { unfold clean. apply Forall_map.
    eapply Forall_impl; [exact Hhex|]. intros c Hc. by apply is_hex_lower. }
  assert (Hclean_no : Forall (fun c => c ≠ Chr.hyphen) clean).
  { unfold clean. apply Forall_map.
    eapply Forall_impl; [exact Hhex|]. intros c Hc. by apply is_hex_lower. }
  assert (Hx : format_page_id tl x = Ok (dashed clean)).
  { unfold format_page_id. rewrite lower_ascii by done. fold clean.
    rewrite bool_decide_false by (intros H; by apply H). done. }
  split; [exact Hx|]. split; [|split].
  - unfold format_page_id.
    rewrite remove_hyphens_dashed by done.
    rewrite lower_ascii by done.
    assert (Hid : map ascii_lower clean = clean).
    { unfold clean. rewrite <- list_fmap_compose. apply list_fmap_ext.
      intros i c _. apply ascii_lower_idemp. }
    rewrite Hid.
    rewrite bool_decide_false by (intros H; by apply H). done.
  - by apply dashed_pieces.
  - destruct (format_page_id_cases tl y) as [[_ H]|[H _]]; [exact H|done].
Qed.

Lemma format_page_id_idempotent_witness :
  let x := py "1a2B3c4D-5e6f7A8b9c0D1e2F3a4b5C6d" in
  let y := py "abc" in
  let n := py "1a2b3c4d-5e6f-7a8b-9c0d-1e2f3a4b5c6d" in
  format_page_id ascii_tolower_only x = Ok n
  /\ format_page_id ascii_tolower_only n = Ok n
  /\ format_page_id ascii_tolower_only y
     = Raise (ValueError (py "Invalid page ID length: abc")).
Proof.
  intros x y n.
  assert (H1 : length (remove_hyphens x) = 32) by (by vm_compute).
  assert (H2 : Forall (fun c => is_hex c = true) (remove_hyphens x)).
  { apply (bool_decide_unpack _). by vm_compute. }
  assert (H3 : length (remove_hyphens y) + count_I_dot y ≠ 32).
  { by vm_compute. }
  destruct (format_page_id_idempotent ascii_tolower_only x y H1 H2 H3)
    as (Ha & Hb & _ & Hc).
  split; [exact Ha | split; [exact Hb | exact Hc]].
Defined.

(** C5, counterexample: 31 code points after stripping hyphens, and the
    identifier is accepted, because its first code point lowercases to two. *)
Lemma format_page_id_accepts_31 :
  let x := Chr.capital_I_dot :: replicate 30 97%N in
  length (remove_hyphens x) = 31
  /\ (forall tl : pystr -> pystr -> codepoint -> codepoint,
        format_page_id tl x
        = Ok ([Chr.small_i; Chr.combining_dot]
                ++ py "aaaaaa-aaaa-aaaa-aaaa-aaaaaaaaaaaa")).
Proof. split; [by vm_compute|]. intros tl. by vm_compute. Qed.

(** C10, as the code has it. The normaliser either raises the length error
    or returns the dashed lowercase form of the hyphen-stripped input, and it
    raises exactly when the hyphen-stripped length plus the number of U+0130
    code points is not 32 -- for an input without U+0130, exactly when the
    hyphen-stripped length is not 32.  Nothing checks that the code points
    are hexadecimal digits: 32 letters outside a-f are accepted. *)
Theorem format_page_id_raises_iff
    (tl : pystr -> pystr -> codepoint -> codepoint) (x : pystr) :
  ((length (remove_hyphens x) + count_I_dot x ≠ 32
    /\ format_page_id tl x
       = Raise (ValueError (py "Invalid page ID length: " ++ x)))
   \/ (length (remove_hyphens x) + count_I_dot x = 32
       /\ format_page_id tl x = Ok (dashed (lower tl (remove_hyphens x)))))
  /\ (Forall (fun c => is_ascii c = true) x ->
      count_I_dot x = 0
      /\ lower tl (remove_hyphens x) = map ascii_lower (remove_hyphens x))
  /\ format_page_id tl (py "Not-Hex-Digits-XYZ-uvw-ghijklmnopqrst")
     = Ok (py "nothexdi-gits-xyzu-vwgh-ijklmnopqrst")
  /\ length (remove_hyphens (py "Not-Hex-Digits-XYZ-uvw-ghijklmnopqrst")) = 32.
Proof.
  split; [apply format_page_id_cases|]. split; [|by vm_compute].
  intros Hascii. split.
  - unfold count_I_dot. apply length_zero_iff_nil.
    induction Hascii as [|c t Hc _ IH]; [done|].
    rewrite filter_cons, decide_False; [done|]. intros ->. discriminate Hc.
  - apply lower_ascii. unfold remove_hyphens.
    apply Forall_forall. intros c Hc%list_elem_of_filter.
    rewrite Forall_forall in Hascii. apply Hascii. tauto.
Qed.

(** C10, counterexample: 32 code points after stripping hyphens, and the
    normaliser raises, because each lowercases to two. *)
Lemma format_page_id_rejects_32 :
  let x := replicate 32 Chr.capital_I_dot in
  length (remove_hyphens x) = 32
  /\ (forall tl : pystr -> pystr -> codepoint -> codepoint,
        format_page_id tl x
        = Raise (ValueError (py "Invalid page ID length: " ++ x))).
Proof. split; [by vm_compute|]. intros tl. by vm_compute. Qed.

(** ** Markdown-to-block converter *)

Lemma startswith_app (p r : pystr) : startswith p (p ++ r) = true.
Proof. induction p as [|a p IH]; simpl; [done|]. by rewrite N.eqb_refl. Qed.

Lemma startswith_inv (p s : pystr) :
  startswith p s = true -> s = p ++ drop (length p) s.
Proof.
  revert s. induction p as [|a p IH]; intros [|b s] H; simpl in *; try done.
  apply andb_true_iff in H as [->%N.eqb_eq H]. f_equal. by apply IH.
Qed.


Lemma first_differs (p s : pystr) :
  head p ≠ None -> head p ≠ head s -> startswith p s = false.
Proof.
  destruct p as [|a p], s as [|b s]; simpl; try done.
  intros _ H. replace (a =? b)%N with false; [done|].
  symmetry. apply N.eqb_neq. congruence.
Qed.

Lemma leading_run_stop (cls : codepoint -> bool) (ds : pystr) (c : codepoint)
    (r : pystr) :
  Forall (fun d => cls d = true) ds -> cls c = false ->
  leading_run cls (ds ++ c :: r) = ds.
Proof.
  intros Hds Hc. induction Hds as [|d ds Hd _ IH]; simpl.
  - by rewrite Hc.
  - by rewrite Hd, IH.
Qed.

Section Converter.
Variable nd : codepoint -> bool.

Lemma decimal_not_dot (c : codepoint) :
  (Py_UNICODE_ISDECIMAL nd) c = true -> (c =? Chr.dot)%N = false.
Proof.
  intros H. apply N.eqb_neq. intros ->. discriminate H.
Qed.

(** The numbered marker is one or more digits, a dot and one white-space
    code point; the match is the only way to cut the line so. *)
Lemma match_numbered_Some (line r : pystr) :
  match_numbered nd line = Some r <->
  exists (ds : pystr) (w : codepoint),
    ds ≠ [] /\ Forall (fun d => (Py_UNICODE_ISDECIMAL nd) d = true) ds
    /\ Py_UNICODE_ISSPACE w = true /\ line = ds ++ Chr.dot :: w :: r.
Proof.
  unfold match_numbered.
  rewrite re_plus_one by apply decimal_not_dot.
  split.
  - intros H.
    destruct (decide (leading_run (Py_UNICODE_ISDECIMAL nd) line = [])) as [E|E].
    { rewrite bool_decide_true in H by done. discriminate H. }
    rewrite bool_decide_false in H by done.
    pose proof (leading_run_app (Py_UNICODE_ISDECIMAL nd) line) as Happ.
    destruct (drop (length (leading_run (Py_UNICODE_ISDECIMAL nd) line)) line)
      as [|c [|w rest]]; cbn in H; try discriminate H.
    { destruct (c =? Chr.dot)%N; discriminate H. }
    destruct (N.eqb_spec c Chr.dot) as [->|]; [|discriminate H].
    destruct (Py_UNICODE_ISSPACE w) eqn:Hw; [|discriminate H].
    cbn in H. injection H as <-.
    exists (leading_run (Py_UNICODE_ISDECIMAL nd) line), w.
    split; [done|]. split; [apply leading_run_Forall|]. done.
  - intros (ds & w & Hne & Hds & Hw & ->).
    rewrite leading_run_stop by done.
    rewrite bool_decide_false by done.
    rewrite drop_app_length. cbn. by rewrite Hw.
Qed.

Lemma split_lines_nonempty (s : pystr) : split_lines s ≠ [].
Proof.
  destruct s as [|c s]; simpl; [done|].
  destruct (c =? Chr.newline)%N; [done|]. by destruct (split_lines s).
Qed.

Lemma split_lines_app (a b : pystr) :
  split_lines (a ++ Chr.newline :: b) = split_lines a ++ split_lines b.
Proof.
  induction a as [|c a IH]; simpl; [done|].
  destruct (c =? Chr.newline)%N; [by rewrite IH|].
  rewrite IH. pose proof (split_lines_nonempty a).
  by destruct (split_lines a).
Qed.

Lemma split_lines_one (line : pystr) :
  Forall (fun c => c ≠ Chr.newline) line -> split_lines line = [line].
Proof.
  induction 1 as [|c t Hc _ IH]; simpl; [done|].
  apply N.eqb_neq in Hc. by rewrite Hc, IH.
Qed.

(** Digits, a dot and a white-space code point at the start of a line make
    it a numbered item: no earlier rule of the table takes such a line. *)
Lemma line_to_block_numbered (ds : pystr) (w : codepoint) (r : pystr) :
  ds ≠ [] -> Forall (fun d => Py_UNICODE_ISDECIMAL nd d = true) ds ->
  Py_UNICODE_ISSPACE w = true ->
  line_to_block nd (ds ++ Chr.dot :: w :: r)
  = Some (Block numbered_list_item r).
Proof.
  intros Hne Hds Hw.
  assert (Hm : match_numbered nd (ds ++ Chr.dot :: w :: r) = Some r).
  { apply match_numbered_Some. by exists ds, w. }
  unfold line_to_block. rewrite Hm.
  destruct ds as [|d ds]; [done|].
  apply Forall_cons in Hds as [Hd Hds].
  rewrite bool_decide_false by done.
  assert (Hhead : forall (p : pystr) (c : codepoint),
             head p = Some c -> Py_UNICODE_ISDECIMAL nd c = false ->
             startswith p ((d :: ds) ++ Chr.dot :: w :: r) = false).
  { intros p c Hp Hc. apply first_differs; rewrite Hp; [done|].
    simpl. intros [= <-]. congruence. }
  rewrite (Hhead (py "# ") 35%N), (Hhead (py "## ") 35%N),
    (Hhead (py "### ") 35%N), (Hhead (py "- ") 45%N) by done.
  destruct (startswith bullet_marker ((d :: ds) ++ Chr.dot :: w :: r))
    eqn:E; [|done].
  exfalso. apply startswith_inv in E. unfold bullet_marker in E.
  destruct ds as [|d2 [|d3 [|d4 ds]]]; cbn [app] in E;
    try discriminate E.
  injection E as _ _ _ ->.
  apply Forall_cons in Hds as [_ Hds].
  apply Forall_cons in Hds as [_ Hds].
  apply Forall_cons in Hds as [Hd4 _]. discriminate Hd4.
Qed.

End Converter.


(** The converter on a small document: blank lines vanish, leading white
    space keeps a line a paragraph, a marker alone is a paragraph. *)
Example markdown_to_notion_blocks_example (nd : codepoint -> bool) :
  markdown_to_notion_blocks nd
    (py "# Title" ++ [10%N] ++ py "   " ++ [10%N] ++ py "- item  " ++ [10%N]
       ++ [10%N] ++ py "12. twelfth" ++ [10%N] ++ py "  # indented" ++ [10%N]
       ++ py "### " ++ [10%N] ++ py "text")
  = [Block heading_1 (py "Title"); Block bulleted_list_item (py "item");
     Block numbered_list_item (py "twelfth");
     Block paragraph (py "  # indented"); Block paragraph (py "###");
     Block paragraph (py "text")].
Proof. by vm_compute. Qed.

(** ** Running computations *)

Lemma http_next (req : request) (r : reply) (rest : list reply)
    (lg : list (request * reply)) :
  http req (World (r :: rest) lg) =
    (match r with
     | NetworkError => Raise ConnectionError
     | Http status data => Ok (status, data)
     end, World rest (lg ++ [(req, r)])).
Proof. unfold http. simpl. by destruct r. Qed.

Lemma bind_Ok {A B : Type} (m : M A) (f : A -> M B) (w w' : world) (a : A) :
  m w = (Ok a, w') -> bind m f w = f a w'.
Proof. unfold bind. by intros ->. Qed.

Lemma bind_Raise {A B : Type} (m : M A) (f : A -> M B) (w w' : world)
    (e : exn) :
  m w = (Raise e, w') -> bind m f w = (Raise e, w').
Proof. unfold bind. by intros ->. Qed.

(** One turn of the reader's loop is one call, the check of its status, and
    the test of [has_more]. *)
Lemma read_pages_turn (page_id : pystr) (start_cursor : option pystr)
    (blocks : list listed_block) (r : reply) (rest : list reply)
    (lg : list (request * reply)) :
  read_pages page_id start_cursor blocks (r :: rest) lg
  = bind
      (http (GetChildren page_id (Some 100%N)
               (if truthy start_cursor then start_cursor else None)))
      (fun resp =>
         bind (raise_for_status resp)
           (fun _ w =>
              if has_more (snd resp) then
                read_pages page_id (next_cursor (snd resp))
                  (blocks ++ results (snd resp)) (script w) (log w)
              else (Ok (blocks ++ results (snd resp)), w)))
      (World (r :: rest) lg).
Proof.
  unfold bind at 1. rewrite http_next. cbn [read_pages].
  destruct r as [|st data]; [done|].
  unfold bind, raise_for_status, raise, ret. cbn [fst snd].
  destruct (in_range 400 599 st); [done|]. by destruct (has_more data).
Qed.

(** ** Page updater *)

(** Every reply to a delete request lets the loop go on, whatever its
    status; only a failure of the connection stops it. *)
Lemma delete_loop (blocks : list listed_block) :
  forall (ids : list pystr) (ds rest : list reply)
      (lg : list (request * reply)),
    map lb_id blocks = map Some ids ->
    length ds = length ids ->
    Forall (fun r => r ≠ NetworkError) ds ->
    for_each delete_one blocks (World (ds ++ rest) lg)
    = (Ok tt, World rest (lg ++ zip (map DeleteBlock ids) ds)).
Proof.
  induction blocks as [|b blocks IH]; intros ids ds rest lg Hids Hlen Hds.
  - destruct ids; [|done]. destruct ds; [|done]. simpl.
    by rewrite app_nil_r.
  - destruct ids as [|id ids]; [done|]. destruct ds as [|d ds]; [done|].
    injection Hids as Hid Hids. injection Hlen as Hlen.
    apply Forall_cons in Hds as [Hd Hds].
    cbn [for_each]. unfold bind at 1. unfold delete_one at 1.
    unfold block_id. rewrite Hid. unfold bind at 1. unfold ret at 1.
    unfold bind at 1. cbn [app]. rewrite http_next.
    destruct d as [|st data]; [done|]. unfold ret at 1.
    rewrite (IH ids ds rest _ Hids Hlen Hds).
    cbn [map zip zip_with]. by rewrite <- app_assoc.
Qed.

Lemma patch_loop (page_id : pystr) (bs : list (list block)) :
  forall (ps : list (N * body)) (rest : list reply)
      (lg : list (request * reply)),
    length ps = length bs ->
    Forall (fun p => in_range 400 599 (fst p) = false) ps ->
    for_each (patch_one page_id) bs (World (map reply_of ps ++ rest) lg)
    = (Ok tt,
       World rest (lg ++ zip (map (PatchChildren page_id) bs) (map reply_of ps))).
Proof.
  induction bs as [|b bs IH]; intros ps rest lg Hlen Hps.
  - destruct ps; [|done]. simpl. by rewrite app_nil_r.
  - destruct ps as [|[st data] ps]; [done|]. injection Hlen as Hlen.
    apply Forall_cons in Hps as [Hp Hps]. simpl in Hp.
    cbn [for_each map app]. unfold bind at 1. unfold patch_one at 1.
    unfold bind at 1. unfold reply_of at 1. rewrite http_next.
    unfold raise_for_status at 1. cbn [fst snd]. rewrite Hp. unfold ret at 1.
    rewrite (IH ps rest _ Hlen Hps).
    cbn [map zip zip_with]. by rewrite <- app_assoc.
Qed.

Lemma concat_chunks {A : Type} (s : nat) (l : list A) (q j : nat) :
  concat (map (fun k => take s (drop (k * s) l)) (seq j q))
  = take (q * s) (drop (j * s) l).
Proof.
  revert j. induction q as [|q IH]; intros j; simpl; [done|].
  rewrite IH. simpl. rewrite (Nat.add_comm s (j * s)), <- drop_drop.
  apply take_take_drop.
Qed.

Lemma batches_eq (new_blocks : list block) :
  batches new_blocks
  = map (fun k => take 100 (drop (k * 100) new_blocks))
      (seq 0 ((length new_blocks + 99) / 100)).
Proof.
  unfold batches, range0, batch_size. rewrite map_map.
  by replace (length new_blocks + 100 - 1) with (length new_blocks + 99) by lia.
Qed.

Lemma batches_concat (new_blocks : list block) :
  concat (batches new_blocks) = new_blocks.
Proof.
  rewrite batches_eq, concat_chunks, Nat.mul_0_l, drop_0.
  apply take_ge.
  pose proof (Nat.div_mod_eq (length new_blocks + 99) 100).
  pose proof (Nat.mod_upper_bound (length new_blocks + 99) 100). lia.
Qed.

Lemma batches_sizes (new_blocks : list block) :
  Forall (fun batch => 0 < length batch <= 100) (batches new_blocks).
Proof.
  rewrite batches_eq. apply Forall_forall. intros batch Hin.
  apply list_elem_of_fmap in Hin as (k & -> & Hk).
  apply elem_of_seq in Hk.
  pose proof (Nat.div_mod_eq (length new_blocks + 99) 100).
  pose proof (Nat.mod_upper_bound (length new_blocks + 99) 100).
  rewrite length_take, length_drop. lia.
Qed.

(** C2. When the listing and the appends get replies without an error status
    and every delete gets a reply, the exchanges of a page replacement are,
    in this order: one listing request without page size or cursor, one
    delete request for each listed block in the listed order, and one append
    request for each batch of the new blocks in order.  The batches have
    between 1 and 100 blocks and, put end to end, are the new blocks. *)
Theorem update_notion_page_protocol
    (page_id : pystr) (new_blocks : list block)
    (status : N) (listing : body) (ids : list pystr)
    (ds : list reply) (ps : list (N * body)) (rest : list reply)
    (lg : list (request * reply)) :
  in_range 400 599 status = false ->
  map lb_id (results listing) = map Some ids ->
  length ds = length ids ->
  Forall (fun r => r ≠ NetworkError) ds ->
  length ps = length (batches new_blocks) ->
  Forall (fun p => in_range 400 599 (fst p) = false) ps ->
  update_notion_page page_id new_blocks
    (World (Http status listing :: ds ++ map reply_of ps ++ rest) lg)
  = (Ok tt,
     World rest
       (lg ++ (GetChildren page_id None None, Http status listing)
           :: zip (map DeleteBlock ids) ds
           ++ zip (map (PatchChildren page_id) (batches new_blocks))
                (map reply_of ps)))
  /\ concat (batches new_blocks) = new_blocks
  /\ Forall (fun batch => 0 < length batch <= 100) (batches new_blocks).
Proof.
  intros Hst Hids Hlen Hds Hlenp Hps.
  split; [|split; [apply batches_concat | apply batches_sizes]].
  unfold update_notion_page. unfold bind at 1.
  unfold delete_all_blocks. unfold bind at 1. rewrite http_next.
  unfold bind at 1. unfold raise_for_status at 1. cbn [fst snd].
  rewrite Hst. unfold ret at 1.
  rewrite (delete_loop _ ids ds _ _ Hids Hlen Hds).
  rewrite (patch_loop _ _ ps rest _ Hlenp Hps).
  by rewrite <- !app_assoc.
Qed.

Lemma update_notion_page_protocol_witness :
  let new_blocks := replicate 250 (Block paragraph (py "x")) in
  let empty := Body [] false None None None in
  let listing :=
    Body [Listed (Some (py "b1")) (Some (py "paragraph")) [Some (py "old")];
          Listed (Some (py "b2")) (Some (py "heading_1")) [Some (py "older")]]
      true (Some (py "cursor")) None None in
  let ds := [Http 200 empty; Http 200 empty] in
  let ps := [(200%N, empty); (200%N, empty); (200%N, empty)] in
  (update_notion_page (py "page") new_blocks
     (World (Http 200 listing :: ds ++ map reply_of ps ++ []) [])
   = (Ok tt,
      World []
        ([] ++ (GetChildren (py "page") None None, Http 200 listing)
            :: zip (map DeleteBlock [py "b1"; py "b2"]) ds
            ++ zip (map (PatchChildren (py "page")) (batches new_blocks))
                 (map reply_of ps)))
   /\ concat (batches new_blocks) = new_blocks
   /\ Forall (fun batch => 0 < length batch <= 100) (batches new_blocks))
  /\ map length (batches new_blocks) = [100; 100; 50].
Proof.
  intros new_blocks empty listing ds ps. split; [|by vm_compute].
  apply update_notion_page_protocol.
  - by vm_compute.
  - by vm_compute.
  - by vm_compute.
  - by repeat constructor.
  - by vm_compute.
  - by repeat constructor.
Defined.

(** C1 at a failed delete. A page lists one block; the delete request for it
    is answered with status 500.  The page replacement goes on to append the
    new block and returns; so does the whole run.  The same status on the
    listing request or on the append request raises. *)
Theorem failed_delete_is_ignored :
  let empty := Body [] false None None None in
  let listing :=
    Body [Listed (Some (py "b1")) (Some (py "paragraph")) [Some (py "old")]]
      false None None None in
  let new_blocks := [Block paragraph (py "new")] in
  let page := py "page" in
  update_notion_page page new_blocks
    (World [Http 200 listing; Http 500 empty; Http 200 empty] [])
  = (Ok tt,
     World []
       [(GetChildren page None None, Http 200 listing);
        (DeleteBlock (py "b1"), Http 500 empty);
        (PatchChildren page new_blocks, Http 200 empty)])
  /\ update_notion_page page new_blocks
       (World [Http 500 listing; Http 200 empty; Http 200 empty] [])
     = (Raise (HTTPError 500),
        World [Http 200 empty; Http 200 empty]
          [(GetChildren page None None, Http 500 listing)])
  /\ update_notion_page page new_blocks
       (World [Http 200 listing; Http 200 empty; Http 500 empty] [])
     = (Raise (HTTPError 500),
        World []
          [(GetChildren page None None, Http 200 listing);
           (DeleteBlock (py "b1"), Http 200 empty);
           (PatchChildren page new_blocks, Http 500 empty)])
  /\ (let cfg :=
        Config (<[py "default" := py "0123456789abcdef0123456789abcdef"]> ∅)
          (PrInfo (py "Add SSO") (py "") (py "https://example.test/pull/7") 7
             (py "org/repo") (py "dev") (py "main") (py "2024-01-02T03:04:05Z")
             (py "2024-01-02T03:04:05Z"))
          None in
      let text := Body [] false None None (Some (py "new")) in
      forall (nd : codepoint -> bool)
          (tl : pystr -> pystr -> codepoint -> codepoint),
        fst (main nd tl cfg
               (World [Http 200 listing; Http 200 text; Http 200 listing;
                       Http 500 empty; Http 200 empty] []))
        = Ok tt).
Proof. repeat apply conj; intros; by vm_compute. Qed.

(** ** Content reader *)

Lemma read_pages_all (page_id : pystr) (pages : list (N * body)) :
  forall (last : N * body) (start_cursor : option pystr)
      (blocks : list listed_block) (rest : list reply)
      (lg : list (request * reply)),
    Forall (fun p => in_range 400 599 (fst p) = false
                     /\ has_more (snd p) = true) pages ->
    in_range 400 599 (fst last) = false ->
    has_more (snd last) = false ->
    read_pages page_id start_cursor blocks
      (map reply_of (pages ++ [last]) ++ rest) lg
    = (Ok (blocks ++ concat (map (fun p => results (snd p)) (pages ++ [last]))),
       World rest
         (lg ++ zip (cursor_requests page_id start_cursor (pages ++ [last]))
                  (map reply_of (pages ++ [last])))).
Proof.
  induction pages as [|[st data] pages IH];
    intros [lst ldata] start_cursor blocks rest lg Hpages Hlst Hmore;
    simpl in Hlst, Hmore.
  - cbn [app map reply_of read_pages fst snd]. rewrite Hlst, Hmore.
    cbn [concat cursor_requests zip zip_with map snd]. by rewrite !app_nil_r.
  - apply Forall_cons in Hpages as [[Hst Hdata] Hpages]. simpl in Hst, Hdata.
    cbn [app map read_pages]. unfold reply_of at 1.
    cbn [fst snd]. rewrite Hst, Hdata.
    rewrite (IH (lst, ldata) _ _ rest _ Hpages Hlst Hmore).
    cbn [concat cursor_requests zip zip_with map snd fst reply_of].
    by rewrite <- !app_assoc.
Qed.

(** C7. When the store answers the listing requests with pages that all say
    there is more, then one that says there is no more, none with an error
    status, the reader asks once for each page, 100 blocks at a time and with
    the cursor the page before gave, takes no further reply, and returns the
    rendering of the blocks of all the pages, in the order received. *)
Theorem get_notion_page_content_all_pages
    (page_id : pystr) (pages : list (N * body)) (last : N * body)
    (rest : list reply) (lg : list (request * reply)) :
  Forall (fun p => in_range 400 599 (fst p) = false
                   /\ has_more (snd p) = true) pages ->
  in_range 400 599 (fst last) = false ->
  has_more (snd last) = false ->
  let all := pages ++ [last] in
  get_page_blocks page_id (World (map reply_of all ++ rest) lg)
  = (Ok (concat (map (fun p => results (snd p)) all)),
     World rest (lg ++ zip (cursor_requests page_id None all) (map reply_of all)))
  /\ get_notion_page_content page_id (World (map reply_of all ++ rest) lg)
     = (Ok (render_blocks (concat (map (fun p => results (snd p)) all))),
        World rest
          (lg ++ zip (cursor_requests page_id None all) (map reply_of all))).
Proof.
  intros Hpages Hlast Hmore all.
  assert (H : get_page_blocks page_id (World (map reply_of all ++ rest) lg)
              = (Ok (concat (map (fun p => results (snd p)) all)),
                 World rest
                   (lg ++ zip (cursor_requests page_id None all)
                            (map reply_of all)))).
  { unfold get_page_blocks, all. cbn [script log].
    by rewrite (read_pages_all page_id pages last None [] rest lg). }
  split; [exact H|].
  unfold get_notion_page_content. by rewrite (bind_Ok _ _ _ _ _ H).
Qed.

Lemma get_notion_page_content_three_pages :
  let blk (text : string) :=
    Listed (Some (py text)) (Some (py "paragraph")) [Some (py text)] in
  let p1 := (200%N, Body [blk "a"%string; blk "b"%string] true (Some (py "c1")) None None) in
  let p2 := (200%N, Body [blk "c"%string] true (Some (py "c2")) None None) in
  let p3 := (200%N, Body [blk "d"%string; blk "e"%string] false None None None) in
  let page := py "page" in
  get_page_blocks page (World (map reply_of ([p1; p2] ++ [p3]) ++ []) [])
  = (Ok [blk "a"%string; blk "b"%string; blk "c"%string; blk "d"%string; blk "e"%string],
     World []
       [(GetChildren page (Some 100%N) None, reply_of p1);
        (GetChildren page (Some 100%N) (Some (py "c1")), reply_of p2);
        (GetChildren page (Some 100%N) (Some (py "c2")), reply_of p3)])
  /\ fst (get_notion_page_content page
            (World (map reply_of ([p1; p2] ++ [p3]) ++ []) []))
     = Ok (py "a" ++ [10%N] ++ py "b" ++ [10%N] ++ py "c" ++ [10%N] ++ py "d"
             ++ [10%N] ++ py "e").
Proof.
  intros blk p1 p2 p3 page.
  assert (H1 : Forall (fun p => in_range 400 599 (fst p) = false
                                /\ has_more (snd p) = true) [p1; p2]).
  { by repeat constructor. }
  assert (H2 : in_range 400 599 (fst p3) = false) by done.
  assert (H3 : has_more (snd p3) = false) by done.
  destruct (get_notion_page_content_all_pages page [p1; p2] p3 [] [] H1 H2 H3)
    as [Ha Hb].
  split; [exact Ha|]. rewrite Hb. by vm_compute.
Defined.

(** ** Orchestrator and tracker *)

Section Extends.
Context {A B : Type} (Q : request -> Prop).

Lemma extends_lift (r : result A) : extends Q (lift r).
Proof. intros w. exists []. by rewrite app_nil_r. Qed.

Lemma extends_ret (a : A) : extends Q (ret a).
Proof. apply extends_lift. Qed.

Lemma extends_raise (e : exn) : extends Q (@raise A e).
Proof. apply (extends_lift (Raise e)). Qed.

Lemma extends_bind (m : M A) (f : A -> M B) :
  extends Q m -> (forall a, extends Q (f a)) -> extends Q (bind m f).
Proof.
  intros Hm Hf w. unfold bind.
  destruct (Hm w) as (i1 & E1 & F1).
  destruct (m w) as [[a|e] w1]; simpl in E1.
  - destruct (Hf a w1) as (i2 & E2 & F2).
    exists (i1 ++ i2). rewrite E2, E1, app_assoc. split; [done|].
    by apply Forall_app.
  - by exists i1.
Qed.
End Extends.

Lemma extends_http (Q : request -> Prop) (req : request) :
  Q req -> extends Q (http req).
Proof.
  intros Hq [[|r rest] lg]; unfold http; simpl.
  - exists []. by rewrite app_nil_r.
  - exists [(req, r)]. split; [by destruct r|].
    constructor; [exact Hq | constructor].
Qed.

Lemma extends_raise_for_status (Q : request -> Prop) (r : N * body) :
  extends Q (raise_for_status r).
Proof.
  unfold raise_for_status.
  destruct (in_range 400 599 (fst r)); [apply extends_raise | apply extends_ret].
Qed.

Lemma extends_for_each {A : Type} (Q : request -> Prop) (f : A -> M unit)
    (l : list A) :
  (forall a, extends Q (f a)) -> extends Q (for_each f l).
Proof.
  intros Hf. induction l as [|a l IH]; simpl.
  - apply extends_ret.
  - apply extends_bind; [apply Hf | intros _; apply IH].
Qed.

Lemma extends_read_pages (Q : request -> Prop) (page_id : pystr)
    (pending : list reply) :
  (forall size cursor, Q (GetChildren page_id size cursor)) ->
  forall (start_cursor : option pystr) (blocks : list listed_block)
      (lg : list (request * reply)),
    exists issued : list (request * reply),
      log (snd (read_pages page_id start_cursor blocks pending lg))
      = lg ++ issued
      /\ Forall (fun e => Q (fst e)) issued.
Proof.
  intros Hq. induction pending as [|r rest IH]; intros start_cursor blocks lg.
  - exists []. by rewrite app_nil_r.
  - cbn [read_pages].
    set (e := (GetChildren page_id (Some 100%N)
                 (if truthy start_cursor then start_cursor else None), r)).
    assert (He : Forall (fun e => Q (fst e)) [e]).
    { constructor; [apply Hq | constructor]. }
    destruct r as [|st data]; [by exists [e]|].
    destruct (in_range 400 599 st); [by exists [e]|].
    destruct (has_more data); [|by exists [e]].
    destruct (IH (next_cursor data) (blocks ++ results data) (lg ++ [e]))
      as (i & E & F).
    exists (e :: i). rewrite E, <- app_assoc. split; [done|].
    constructor; [apply Hq | exact F].
Qed.

Lemma extends_get_notion_page_content (Q : request -> Prop) (page_id : pystr) :
  (forall size cursor, Q (GetChildren page_id size cursor)) ->
  extends Q (get_notion_page_content page_id).
Proof.
  intros Hq. apply extends_bind; [|intros; apply extends_ret].
  intros w. apply extends_read_pages, Hq.
Qed.

Lemma extends_chat_completion (Q : request -> Prop) (prompt : request)
    (pending : list reply) :
  Q prompt ->
  forall (retries : nat) (lg : list (request * reply)),
    exists issued : list (request * reply),
      log (snd (chat_completion retries prompt pending lg)) = lg ++ issued
      /\ Forall (fun e => Q (fst e)) issued.
Proof.
  intros Hq. induction pending as [|r rest IH]; intros retries lg.
  - exists []. by rewrite app_nil_r.
  - cbn [chat_completion].
    assert (He : Forall (fun e => Q (fst e)) [(prompt, r)]).
    { constructor; [exact Hq | constructor]. }
    assert (Hagain : exists issued : list (request * reply),
              log (snd match retries with
                       | S retries' =>
                           chat_completion retries' prompt rest
                             (lg ++ [(prompt, r)])
                       | O => (Raise APIError,
                               World rest (lg ++ [(prompt, r)]))
                       end) = lg ++ issued
              /\ Forall (fun e => Q (fst e)) issued).
    { destruct retries as [|retries']; [by exists [(prompt, r)]|].
      destruct (IH retries' (lg ++ [(prompt, r)])) as (i & E & F).
      exists ((prompt, r) :: i). rewrite E, <- app_assoc. split; [done|].
      constructor; [exact Hq | exact F]. }
    destruct r as [|st data]; [exact Hagain|].
    destruct (in_range 200 299 st); [by exists [(prompt, Http st data)]|].
    destruct (should_retry st); [exact Hagain|].
    by exists [(prompt, Http st data)].
Qed.

Lemma extends_synthesize_with_openai (Q : request -> Prop)
    (existing_content : pystr) (pr : pr_info) :
  (forall e p d, Q (ChatCompletion e p d)) ->
  extends Q (synthesize_with_openai existing_content pr).
Proof.
  intros Hq w. unfold synthesize_with_openai.
  apply extends_chat_completion, Hq.
Qed.

Lemma extends_checked_len (Q : request -> Prop) (content : option pystr) :
  extends Q (checked_len content).
Proof. destruct content; [apply extends_ret | apply extends_raise]. Qed.

Lemma extends_update_notion_page (Q : request -> Prop) (page_id : pystr)
    (new_blocks : list block) :
  (forall size cursor, Q (GetChildren page_id size cursor)) ->
  (forall id, Q (DeleteBlock id)) ->
  (forall batch, Q (PatchChildren page_id batch)) ->
  extends Q (update_notion_page page_id new_blocks).
Proof.
  intros Hg Hd Hp. apply extends_bind.
  - apply extends_bind; [by apply extends_http|]. intros r.
    apply extends_bind; [apply extends_raise_for_status|]. intros _.
    apply extends_for_each. intros b. unfold delete_one, block_id.
    apply extends_bind.
    + destruct (lb_id b); [apply extends_ret | apply extends_raise].
    + intros id. apply extends_bind; [by apply extends_http|].
      intros; apply extends_ret.
  - intros _. apply extends_for_each. intros batch.
    apply extends_bind; [by apply extends_http|].
    apply extends_raise_for_status.
Qed.

Lemma tracked_bind {A B : Type} (url : pystr) (m : M A) (f : A -> M B) :
  extends (fun r => is_tracker_request r = false) m ->
  (forall a, tracked url (f a)) -> tracked url (bind m f).
Proof.
  intros Hm Hf w. unfold bind.
  destruct (Hm w) as (i1 & E1 & F1).
  destruct (m w) as [[a|e] w1]; simpl in E1.
  - destruct (Hf a w1) as (before & tracker & E2 & F2 & T).
    exists (i1 ++ before), tracker.
    rewrite E2, E1, <- !app_assoc. split; [done|].
    split; [by apply Forall_app | done].
  - exists i1, []. simpl. rewrite app_nil_r.
    split; [done|]. split; [done|]. by left.
Qed.

(** The last step of [main]. *)
Lemma tracked_tracker (database : option pystr) (pr : pr_info)
    (prefix : option pystr) :
  tracked (pr_url pr)
    (if truthy database then
       bind (check_pr_exists_in_database (default [] database) (pr_url pr))
         (fun found =>
            if found then ret tt
            else bind (add_pr_to_database (default [] database) pr prefix)
                   (fun _ => ret tt))
     else ret tt).
Proof.
  intros [pending lg].
  destruct (truthy database).
  2: { exists [], []. simpl. rewrite app_nil_r. repeat split; [done|by left]. }
  set (db := default [] database).
  exists []. cbn [app].
  unfold bind at 1. unfold check_pr_exists_in_database at 1.
  unfold bind at 1.
  destruct pending as [|r rest].
  { exists []. simpl. rewrite app_nil_r. repeat split; [done|by left]. }
  rewrite http_next.
  destruct r as [|st data].
  { eexists. cbn [snd log]. split; [reflexivity|]. split; [done|].
    right. left. by eexists _, _. }
  unfold bind at 1. unfold raise_for_status at 1. cbn [fst snd].
  destruct (in_range 400 599 st) eqn:Hst.
  { eexists. cbn [raise snd log]. split; [reflexivity|]. split; [done|].
    right. left. by eexists _, _. }
  unfold ret at 1. unfold ret at 1.
  destruct (results data) as [|row0 rows] eqn:Hres; cbn [length Nat.ltb Nat.leb].
  2: { eexists. cbn [ret snd log]. split; [reflexivity|]. split; [done|].
       right. left. by eexists _, _. }
  unfold bind at 1. unfold add_pr_to_database at 1. unfold bind at 1.
  destruct rest as [|r2 rest2].
  { eexists. cbn [http script snd log]. split; [reflexivity|]. split; [done|].
    right. left. by eexists _, _. }
  rewrite http_next.
  match goal with
  | |- context [ (CreatePage db ?row, r2) ] =>
      exists [(QueryDatabase db (pr_url pr) 1, Http st data);
              (CreatePage db row, r2)]
  end.
  split.
  - destruct r2 as [|st2 data2]; [by rewrite <- app_assoc|].
    unfold bind at 1. unfold raise_for_status.
    destruct (in_range 400 599 (fst (st2, data2)));
      [by cbn [raise snd log]; rewrite <- app_assoc|].
    unfold ret at 1. cbn [snd].
    destruct (body_id data2); cbn; by rewrite <- app_assoc.
  - split; [done|]. right. right.
    eexists db, st, data, _, r2. by repeat split.
Qed.

(** In every run, the log grows by exchanges that are not the tracker's,
    followed by the exchanges of the tracker, which are: none; or the
    existence check alone; or that check, answered without an error status
    and with no row, followed by the insert of one row with that link. *)
Lemma main_tracked
    (nd : codepoint -> bool) (tl : pystr -> pystr -> codepoint -> codepoint)
    (cfg : config) :
  tracked (pr_url (event cfg)) (main nd tl cfg).
Proof.
  unfold main.
  apply tracked_bind; [apply extends_lift|]. intros page_id0.
  apply tracked_bind; [apply extends_lift|]. intros page_id.
  apply tracked_bind; [by apply extends_get_notion_page_content|].
  intros existing_content.
  apply tracked_bind; [by apply extends_synthesize_with_openai|].
  intros content.
  apply tracked_bind; [apply extends_checked_len|].
  intros synthesized_content.
  apply tracked_bind; [by apply extends_update_notion_page|].
  intros _. apply tracked_tracker.
Qed.

(** The exchanges of the tracker hold at most one insert. *)
Lemma tracker_exchanges_one_insert (url : pystr)
    (before tracker : list (request * reply)) :
  Forall (fun e => is_tracker_request (fst e) = false) before ->
  tracker_exchanges url tracker ->
  length (filter (fun e => is_insert (fst e) = true) (before ++ tracker)) <= 1.
Proof.
  intros F T. rewrite filter_app, length_app.
  assert (Hb : filter (fun e => is_insert (fst e) = true) before = []).
  { induction F as [|[r rp] before Hr _ IH]; [done|].
    rewrite filter_cons, decide_False; [exact IH|].
    simpl in *. by destruct r. }
  rewrite Hb.
  destruct T as [->|[(db & rp & ->)|(db & st & data & row & rp & -> & _)]];
    cbn; repeat case_decide; try done; simpl; lia.
Qed.

(** A run with a tracking database is the run without one, followed -- when
    that run returns -- by the last step of [main]. *)
Lemma main_then_tracker
    (nd : codepoint -> bool) (tl : pystr -> pystr -> codepoint -> codepoint)
    (cfg : config) (w : world) :
  main nd tl cfg w
  = match main nd tl (Config (page_mapping cfg) (event cfg) None) w with
    | (Ok _, w0) =>
        (if truthy (PR_DATABASE_ID cfg) then
           bind
             (check_pr_exists_in_database (default [] (PR_DATABASE_ID cfg))
                (pr_url (event cfg)))
             (fun found =>
                if found then ret tt
                else bind
                       (add_pr_to_database (default [] (PR_DATABASE_ID cfg))
                          (event cfg)
                          (extract_prefix_from_branch tl
                             (pr_branch (event cfg))))
                       (fun _ => ret tt))
         else ret tt) w0
    | (Raise e, w0) => (Raise e, w0)
    end.
Proof.
  unfold main. cbn [page_mapping event PR_DATABASE_ID truthy].
  unfold bind.
  repeat match goal with
         | |- context [match ?m w with _ => _ end] =>
             destruct (m w) as [[?|?] ?]; try reflexivity
         | |- context [match ?m ?w' with _ => _ end] =>
             is_var w'; destruct (m w') as [[?|?] ?]; try reflexivity
         end.
Qed.

(** C8. In every run the exchanges of the tracker come last and are: none;
    or the existence check (a query for the rows whose link equals the URL
    of the pull request, page size 1) alone; or that check, answered without
    an error status and with no row, followed by the insert of one row with
    that link -- so a row is inserted at most once in a run.  And the
    tracker is called: when a tracking database is configured and the run
    has come through the update of the page (it is then where the run
    without a tracking database ends), the next request, answered by the
    next reply of the world, is the existence check; a failed check ends the run with its error and nothing is
    inserted; a check that lists a row ends the run with nothing inserted;
    a check that lists no row is followed by the insert of the row of the
    pull request, whose reply decides how the run ends.  Without a tracking
    database the run ends after the update of the page. *)
Theorem main_checks_before_insert
    (nd : codepoint -> bool) (tl : pystr -> pystr -> codepoint -> codepoint)
    (cfg : config) (w : world) :
  let url := pr_url (event cfg) in
  let run := main nd tl cfg w in
  let untracked :=
    main nd tl (Config (page_mapping cfg) (event cfg) None) w in
  (exists before tracker : list (request * reply),
     log (snd run) = log w ++ before ++ tracker
     /\ Forall (fun e => is_tracker_request (fst e) = false) before
     /\ tracker_exchanges url tracker
     /\ length (filter (fun e => is_insert (fst e) = true)
                  (before ++ tracker)) <= 1)
  /\ (forall (db : pystr) (w0 : world) (r : reply) (rest : list reply),
        PR_DATABASE_ID cfg = Some db -> db ≠ [] ->
        untracked = (Ok tt, w0) -> script w0 = r :: rest ->
        let check := (QueryDatabase db url 1, r) in
        match r with
        | NetworkError =>
            run = (Raise ConnectionError, World rest (log w0 ++ [check]))
        | Http st data =>
            if in_range 400 599 st then
              run = (Raise (HTTPError st), World rest (log w0 ++ [check]))
            else
              match results data, rest with
              | _ :: _, _ => run = (Ok tt, World rest (log w0 ++ [check]))
              | [], [] => run = (Raise NoReply, World [] (log w0 ++ [check]))
              | [], r2 :: rest2 =>
                  let row :=
                    TrackingRow (pr_title (event cfg)) (pr_author (event cfg))
                      (before_T (pr_created_at (event cfg)))
                      (match extract_prefix_from_branch tl
                               (pr_branch (event cfg)) with
                       | Some prefix => prefix
                       | None => py "none"
                       end)
                      url in
                  run
                  = (match r2 with
                     | NetworkError => Raise ConnectionError
                     | Http st2 data2 =>
                         if in_range 400 599 st2 then Raise (HTTPError st2)
                         else match body_id data2 with
                              | Some _ => Ok tt
                              | None => Raise (KeyError (py "id"))
                              end
                     end,
                     World rest2
                       (log w0 ++ [check; (CreatePage db row, r2)]))
              end
        end)
  /\ (truthy (PR_DATABASE_ID cfg) = false -> run = untracked).
Proof.
  intros url run untracked. split; [|split].
  - destruct (main_tracked nd tl cfg w) as (before & tracker & E & F & T).
    exists before, tracker. split; [done|]. split; [done|]. split; [done|].
    by eapply tracker_exchanges_one_insert.
  - intros db w0 r rest Hdb Hne Hrun Hscript check.
    assert (Hprefix :
              (if truthy (extract_prefix_from_branch tl (pr_branch (event cfg)))
               then default [] (extract_prefix_from_branch tl
                                  (pr_branch (event cfg)))
               else py "none")
              = match extract_prefix_from_branch tl (pr_branch (event cfg)) with
                | Some prefix => prefix
                | None => py "none"
                end).
    { destruct (extract_prefix_from_branch tl (pr_branch (event cfg)))
        as [[|x p]|] eqn:H; try done.
      apply extract_prefix_Some in H as (run0 & _ & _ & Hr & _ & E).
      by destruct run0. }
    assert (Hgo :
              run
              = bind (check_pr_exists_in_database db url)
                  (fun found =>
                     if found then ret tt
                     else bind
                            (add_pr_to_database db (event cfg)
                               (extract_prefix_from_branch tl
                                  (pr_branch (event cfg))))
                            (fun _ => ret tt)) w0).
    { unfold run. rewrite main_then_tracker. fold untracked.
      rewrite Hrun, Hdb. by destruct db. }
    destruct w0 as [pending lg]. simpl in Hscript. subst pending.
    cbn [log]. unfold bind at 1 in Hgo.
    unfold check_pr_exists_in_database at 1 in Hgo.
    unfold bind at 1 in Hgo. rewrite http_next in Hgo.
    destruct r as [|st data]; [exact Hgo|].
    unfold bind at 1 in Hgo. unfold raise_for_status at 1 in Hgo.
    cbn [fst snd] in Hgo.
    destruct (in_range 400 599 st); [exact Hgo|].
    unfold ret at 1 in Hgo. unfold ret at 1 in Hgo.
    destruct (results data) as [|row0 rows];
      cbn [length Nat.ltb Nat.leb] in Hgo; [|exact Hgo].
    unfold bind at 1 in Hgo. unfold add_pr_to_database at 1 in Hgo.
    unfold bind at 1 in Hgo. rewrite Hprefix in Hgo.
    destruct rest as [|r2 rest2]; [exact Hgo|].
    rewrite http_next in Hgo. rewrite Hgo.
    destruct r2 as [|st2 data2]; [by rewrite <- app_assoc|].
    unfold bind at 1. unfold raise_for_status. cbn [fst snd].
    destruct (in_range 400 599 st2); [by cbn; rewrite <- app_assoc|].
    unfold ret at 1.
    destruct (body_id data2); cbn; by rewrite <- app_assoc.
  - intros Hdb. unfold run. rewrite main_then_tracker. fold untracked.
    rewrite Hdb. by destruct untracked as [[[]|e] w0].
Qed.

(** Two runs that reach the tracker: in the first the existence check finds
    no row and one row is inserted; in the second it finds a row and nothing
    is inserted. *)
Lemma main_checks_before_insert_witness :
  let url := py "https://example.test/pull/7" in
  let pr :=
    PrInfo (py "Add SSO") (py "") url 7 (py "org/repo") (py "dev")
      (py "feat/login") (py "2024-01-02T03:04:05Z") (py "2024-01-02T03:04:05Z") in
  let cfg :=
    Config (<[py "feat" := py "0123456789abcdef0123456789abcdef"]> ∅) pr
      (Some (py "db")) in
  let pid := py "01234567-89ab-cdef-0123-456789abcdef" in
  let empty := Body [] false None None None in
  let text := Body [] false None None (Some (py "# Login")) in
  let row := Listed (Some (py "r1")) None [] in
  let found := Body [row] false None None None in
  let created := Body [] false None (Some (py "r2")) None in
  let inserted :=
    TrackingRow (py "Add SSO") (py "dev") (py "2024-01-02") (py "feat") url in
  let before (chat : request) :=
    [(GetChildren pid (Some 100%N) None, Http 200 empty);
     (chat, Http 200 text);
     (GetChildren pid None None, Http 200 empty);
     (PatchChildren pid [Block heading_1 (py "Login")], Http 200 empty)] in
  let chat :=
    ChatCompletion (py "(Page is currently empty)") pr
      (py "(No description provided)") in
  main ascii_decimal_only ascii_tolower_only cfg
    (World [Http 200 empty; Http 200 text; Http 200 empty; Http 200 empty;
            Http 200 empty; Http 200 created] [])
  = (Ok tt,
     World []
       (before chat
          ++ [(QueryDatabase (py "db") url 1, Http 200 empty);
              (CreatePage (py "db") inserted, Http 200 created)]))
  /\ main ascii_decimal_only ascii_tolower_only cfg
       (World [Http 200 empty; Http 200 text; Http 200 empty; Http 200 empty;
               Http 200 found] [])
     = (Ok tt,
        World []
          (before chat ++ [(QueryDatabase (py "db") url 1, Http 200 found)])).
Proof.
  intros url pr cfg pid empty text row found created inserted before chat.
  split.
  - apply (proj1 (proj2
             (main_checks_before_insert ascii_decimal_only ascii_tolower_only
                cfg
                (World [Http 200 empty; Http 200 text; Http 200 empty;
                        Http 200 empty; Http 200 empty; Http 200 created] [])))
             (py "db") (World [Http 200 empty; Http 200 created] (before chat))
             (Http 200 empty) [Http 200 created]);
      [done | done | by vm_compute | done].
  - apply (proj1 (proj2
             (main_checks_before_insert ascii_decimal_only ascii_tolower_only
                cfg
                (World [Http 200 empty; Http 200 text; Http 200 empty;
                        Http 200 empty; Http 200 found] [])))
             (py "db") (World [Http 200 found] (before chat))
             (Http 200 found) []);
      [done | done | by vm_compute | done].
Defined.

(** ** Round trip through the reader *)

Lemma rstrip_cons (c : codepoint) (t : pystr) :
  rstrip (c :: t) =
    match rstrip t with
    | [] => if Py_UNICODE_ISSPACE c then [] else [c]
    | t' => c :: t'
    end.
Proof. done. Qed.

Lemma rstrip_idemp (l : pystr) : rstrip (rstrip l) = rstrip l.
Proof.
  induction l as [|c t IH]; [done|]. rewrite rstrip_cons.
  destruct (rstrip t) as [|x t'] eqn:E.
  - destruct (Py_UNICODE_ISSPACE c) eqn:Hc; [done|].
    rewrite rstrip_cons. simpl. by rewrite Hc.
  - rewrite rstrip_cons, IH. done.
Qed.

Lemma Forall_rstrip (P : codepoint -> Prop) (l : pystr) :
  Forall P l -> Forall P (rstrip l).
Proof.
  induction 1 as [|c t Hc _ IH]; [constructor|]. rewrite rstrip_cons.
  destruct (rstrip t) as [|x t'].
  - destruct (Py_UNICODE_ISSPACE c); [constructor | by repeat constructor].
  - by constructor.
Qed.

(** A tail of a line without trailing white space has none either. *)
Lemma rstrip_tail (a c : pystr) :
  rstrip (a ++ c) = a ++ c -> c ≠ [] -> rstrip c = c.
Proof.
  intros H Hc. induction a as [|x a IH]; [done|].
  apply IH. cbn [app] in H. rewrite rstrip_cons in H.
  destruct (rstrip (a ++ c)) as [|y t'] eqn:E.
  - destruct a; destruct c; try done;
      destruct (Py_UNICODE_ISSPACE x); discriminate H.
  - by injection H.
Qed.

Lemma rstrip_front (p c : pystr) :
  rstrip c = c -> c ≠ [] -> rstrip (p ++ c) = p ++ c.
Proof.
  intros H Hc. induction p as [|x p IH]; [done|].
  cbn [app]. rewrite rstrip_cons, IH. destruct p; by destruct c.
Qed.

(** A line without trailing white space does not end right after a
    white-space code point. *)
Lemma rstrip_tail_nonempty (a : pystr) (w : codepoint) (c : pystr) :
  rstrip (a ++ w :: c) = a ++ w :: c -> Py_UNICODE_ISSPACE w = true -> c ≠ [].
Proof.
  intros H Hw ->. apply rstrip_tail in H; [|done].
  simpl in H. rewrite Hw in H. discriminate H.
Qed.

Lemma split_lines_no_newline (s : pystr) :
  Forall (Forall (fun c => c ≠ Chr.newline)) (split_lines s).
Proof.
  induction s as [|c t IH]; simpl; [by repeat constructor|].
  destruct (N.eqb_spec c Chr.newline) as [->|Hc]; [by constructor|].
  destruct (split_lines t) as [|l ls]; [by repeat constructor|].
  apply Forall_cons in IH as [Hl Hls]. by repeat constructor.
Qed.

Lemma split_join_lines (ls : list pystr) :
  ls ≠ [] -> Forall (Forall (fun c => c ≠ Chr.newline)) ls ->
  split_lines (join_lines ls) = ls.
Proof.
  intros Hne Hls. induction Hls as [|l ls Hl Hls IH]; [done|].
  destruct ls as [|l2 ls].
  - by apply split_lines_one.
  - change (join_lines (l :: l2 :: ls))
      with (l ++ Chr.newline :: join_lines (l2 :: ls)).
    rewrite split_lines_app, split_lines_one by done.
    by rewrite IH.
Qed.

Lemma render_block_stored (id : option pystr) (b : block) :
  render_block (stored id b) = Some (rendered_line b).
Proof.
  destruct b as [t c]. unfold render_block, stored, rendered_line.
  cbn [lb_type lb_rich_text b_type b_content map concat default].
  rewrite app_nil_r. by destruct t.
Qed.

Lemma render_blocks_stored (bs : list block) :
  render_blocks (map (stored None) bs) = join_lines (map rendered_line bs).
Proof.
  unfold render_blocks. f_equal.
  induction bs as [|b bs IH]; [done|].
  cbn [map omap list_omap]. by rewrite render_block_stored, IH.
Qed.

Section RoundTrip.
Variable nd : codepoint -> bool.

(** The blocks of a document come from clean lines. *)
Lemma markdown_to_notion_blocks_lines (markdown : pystr) :
  exists ls : list pystr,
    Forall clean_line ls
    /\ Forall2 (fun l b => line_to_block nd l = Some b) ls
         (markdown_to_notion_blocks nd markdown).
Proof.
  unfold markdown_to_notion_blocks.
  pose proof (split_lines_no_newline markdown) as Hnl.
  induction Hnl as [|line lines Hline _ IH].
  - exists []. by split; constructor.
  - destruct IH as (ls & Hls & H2). cbn [omap list_omap].
    destruct (line_to_block nd (rstrip line)) as [b|] eqn:E.
    + exists (rstrip line :: ls). split; [|by constructor].
      constructor; [|done]. split; [|split].
      * intros Hnil. by rewrite Hnil in E.
      * apply rstrip_idemp.
      * by apply Forall_rstrip.
    + by exists ls.
Qed.

(** A clean line that gave a block: the line rendered for the block is clean
    and gives the block back, up to the text of a bulleted item. *)
Lemma line_round_trip (l : pystr) (b : block) :
  clean_line l -> line_to_block nd l = Some b ->
  clean_line (rendered_line b)
  /\ line_to_block nd (rendered_line b) = Some (reread b).
Proof.
  intros (Hne & Hstrip & Hnl) Hb.
  unfold line_to_block in Hb. rewrite bool_decide_false in Hb by done.
  assert (Hsame : forall b', rendered_line b' = l -> reread b' = b' ->
            line_to_block nd l = Some b' ->
            clean_line (rendered_line b')
            /\ line_to_block nd (rendered_line b') = Some (reread b')).
  { intros b' -> -> H. by repeat split. }
  destruct (startswith (py "# ") l) eqn:E1.
  { injection Hb as <-. apply Hsame; [|done|].
    - by rewrite (startswith_inv _ _ E1) at 2.
    - unfold line_to_block. by rewrite bool_decide_false, E1. }
  destruct (startswith (py "## ") l) eqn:E2.
  { injection Hb as <-. apply Hsame; [|done|].
    - by rewrite (startswith_inv _ _ E2) at 2.
    - unfold line_to_block. by rewrite bool_decide_false, E1, E2. }
  destruct (startswith (py "### ") l) eqn:E3.
  { injection Hb as <-. apply Hsame; [|done|].
    - by rewrite (startswith_inv _ _ E3) at 2.
    - unfold line_to_block. by rewrite bool_decide_false, E1, E2, E3. }
  destruct (startswith (py "- ") l || startswith bullet_marker l) eqn:E4.
  { injection Hb as <-.
    assert (Hrest : drop 2 l ≠ [] /\ exists a, l = a ++ drop 2 l).
    { apply orb_true_iff in E4 as [E|E]; apply startswith_inv in E.
      - change (length (py "- ")) with 2 in E.
        split; [|by exists (py "- ")].
        intros Hnil. rewrite Hnil in E. rewrite E in Hstrip.
        discriminate Hstrip.
      - split; [|by exists (take 2 l); rewrite take_drop].
        rewrite E. done. }
    destruct Hrest as (Hrest & a & Ha).
    assert (Hc : rstrip (drop 2 l) = drop 2 l).
    { apply (rstrip_tail a); [by rewrite <- Ha | done]. }
    unfold rendered_line, reread. cbn [b_type b_content]. split.
    - split; [by destruct (drop 2 l) | split].
      + by apply rstrip_front.
      + apply Forall_app. split; [by repeat constructor|].
        by apply Forall_drop.
    - unfold line_to_block.
      rewrite bool_decide_false by (by destruct (drop 2 l)).
      rewrite (startswith_app bullet_marker), orb_true_r. done. }
  destruct (match_numbered nd l) as [r|] eqn:E5.
  { injection Hb as <-.
    apply match_numbered_Some in E5 as (ds & w & Hds & Hdec & Hw & ->).
    assert (Hr : r ≠ []).
    { apply (rstrip_tail_nonempty (ds ++ [Chr.dot]) w); [|done].
      by rewrite <- app_assoc. }
    assert (Hc : rstrip r = r).
    { apply (rstrip_tail (ds ++ [Chr.dot; w])); [|done].
      by rewrite <- app_assoc. }
    unfold rendered_line, reread. cbn [b_type b_content]. split.
    - split; [done | split].
      + by apply rstrip_front.
      + apply Forall_app. split; [by repeat constructor|].
        apply Forall_app in Hnl as [_ Hnl].
        apply Forall_cons in Hnl as [_ Hnl].
        by apply Forall_cons in Hnl as [_ Hnl].
    - apply (line_to_block_numbered nd [49%N] 32%N r); [done| |done].
      by repeat constructor. }
  injection Hb as <-. apply Hsame; [done|done|].
  unfold line_to_block. by rewrite bool_decide_false, E1, E2, E3, E4, E5.
Qed.

(** The converter, after the reader, on the converter's own blocks: every
    block comes back with its type, and with its text unless it is a
    bulleted item, which comes back with two code points of the marker in
    front of its text. *)
Lemma markdown_round_trip (markdown : pystr) :
  let blocks := markdown_to_notion_blocks nd markdown in
  markdown_to_notion_blocks nd (render_blocks (map (stored None) blocks))
  = map reread blocks.
Proof.
  intros blocks. rewrite render_blocks_stored.
  destruct (markdown_to_notion_blocks_lines markdown) as (ls & Hls & H2).
  fold blocks in H2.
  assert (Hall : Forall (fun b => clean_line (rendered_line b)
                   /\ line_to_block nd (rendered_line b) = Some (reread b))
                   blocks).
  { clear -Hls H2. induction H2 as [|l b ls bs Hb _ IH]; [constructor|].
    apply Forall_cons in Hls as [Hl Hls].
    constructor; [by apply (line_round_trip l) | by apply IH]. }
  clearbody blocks. clear H2 Hls ls.
  unfold markdown_to_notion_blocks.
  destruct blocks as [|b0 bs0]; [done|].
  rewrite split_join_lines.
  - induction Hall as [|b bs (Hc & Hb) _ IH]; [done|].
    cbn [map omap list_omap]. destruct Hc as (_ & -> & _). by rewrite Hb, IH.
  - done.
  - apply Forall_fmap. eapply Forall_impl; [exact Hall|].
    by intros b ((_ & _ & Hnl) & _).
Qed.

Lemma reread_type (b : block) : b_type (reread b) = b_type b.
Proof. by destruct b as [[] c]. Qed.

Lemma reread_text (b : block) :
  b_type b ≠ bulleted_list_item -> reread b = b.
Proof. by destruct b as [[] c]. Qed.

End RoundTrip.

(** C4. For every markdown document, rendering the converter's blocks as the
    reader does and converting the result gives back as many blocks with the
    same types, and the same text for every heading, numbered item and
    paragraph; a numbered item is rendered with the ordinal 1 whatever its
    ordinal was.  A bulleted item does not get its text back: the converter
    makes "- x" a bulleted item with text "x", the reader renders it as the
    four-code-point marker and "x", and the converter strips two code points
    from that line, so the item comes back with text "¢ x" (U+00A2, space,
    x). *)
Theorem bulleted_item_round_trip_changes_text (nd : codepoint -> bool) :
  (forall markdown : pystr,
     let blocks := markdown_to_notion_blocks nd markdown in
     let back :=
       markdown_to_notion_blocks nd (render_blocks (map (stored None) blocks)) in
     map b_type back = map b_type blocks
     /\ forall (i : nat) (b : block),
          blocks !! i = Some b -> b_type b ≠ bulleted_list_item ->
          back !! i = Some b)
  /\ render_blocks
       (map (stored None) (markdown_to_notion_blocks nd (py "7. seven")))
     = py "1. seven"
  /\ markdown_to_notion_blocks nd (py "- x")
     = [Block bulleted_list_item (py "x")]
  /\ render_blocks (map (stored None) [Block bulleted_list_item (py "x")])
     = bullet_marker ++ py "x"
  /\ markdown_to_notion_blocks nd
       (render_blocks (map (stored None) [Block bulleted_list_item (py "x")]))
     = [Block bulleted_list_item ([0xA2%N; 0x20%N] ++ py "x")].
Proof.
  split; [|repeat apply conj; by vm_compute].
  intros markdown blocks back. subst back blocks.
  rewrite (markdown_round_trip nd markdown).
  set (blocks := markdown_to_notion_blocks nd markdown). split.
  - rewrite <- list_fmap_compose. apply list_fmap_ext.
    intros i b _. apply reread_type.
  - intros i b Hi Hb. rewrite list_lookup_fmap, Hi. simpl.
    by rewrite reread_text.
Qed.

(** [rstrip] cuts off white space only, and what it leaves does not end in
    white space. *)
Lemma rstrip_correct (l : pystr) :
  (exists t : pystr,
     l = rstrip l ++ t /\ Forall (fun c => Py_UNICODE_ISSPACE c = true) t)
  /\ (forall (p : pystr) (w : codepoint),
        rstrip l = p ++ [w] -> Py_UNICODE_ISSPACE w = false).
Proof.
  split.
  - induction l as [|c t (t' & E & F)]; [by exists []|].
    rewrite rstrip_cons. destruct (rstrip t) as [|x r] eqn:Er.
    + destruct (Py_UNICODE_ISSPACE c) eqn:Hc.
      * exists (c :: t). split; [done|]. simpl in E.
        apply Forall_cons. split; [done|]. by rewrite E.
      * exists t'. simpl in E. split; [by rewrite E | done].
    + exists t'. split; [|done]. by rewrite E at 1.
  - intros p w E. pose proof (rstrip_idemp l) as Hid. rewrite E in Hid.
    apply rstrip_tail in Hid; [|done]. simpl in Hid.
    by destruct (Py_UNICODE_ISSPACE w).
Qed.

(** ** Converter: the rule table *)




Section ConverterTable.
Variable nd : codepoint -> bool.


End ConverterTable.

(** ** Instances of the statements above *)

Lemma get_page_id_for_prefix_resolution_witness :
  let m : gmap pystr pystr :=
    <[py "feat" := py "P1"]> (<[py "default" := py "P0"]> ∅) in
  Some (py "feat") ≠ Some []
  /\ get_page_id_for_prefix (Some (py "feat")) m = Ok (py "P1")
  /\ get_page_id_for_prefix None m = Ok (py "P0")
  /\ get_page_id_for_prefix (Some (py "chore")) (delete (py "default") m)
     = Raise (ValueError (py "No mapping found for prefix 'chore' and no default page configured.")).
Proof.
  intros m. split; [done|]. split; [|split].
  - apply (proj1 (get_page_id_for_prefix_resolution (Some (py "feat")) m
                    ltac:(done))
             (py "feat") (py "P1")); by vm_compute.
  - apply (proj1 (proj2 (get_page_id_for_prefix_resolution None m
                           ltac:(done))) (py "P0")).
    + by intros (p & Hp & _).
    + by vm_compute.
  - apply (proj1 (proj2 (proj2
             (get_page_id_for_prefix_resolution (Some (py "chore"))
                (delete (py "default") m) ltac:(done))))).
    + intros (p & [= <-] & Hp). vm_compute in Hp. by destruct Hp.
    + by vm_compute.
Defined.


Lemma format_page_id_raises_iff_witness :
  let x := py "0123456789ABCDEF-0123456789abcdef" in
  format_page_id ascii_tolower_only x
  = Ok (py "01234567-89ab-cdef-0123-456789abcdef")
  /\ format_page_id ascii_tolower_only (py "0123")
     = Raise (ValueError (py "Invalid page ID length: 0123")).
Proof.
  intros x. split.
  - destruct (proj1 (format_page_id_raises_iff ascii_tolower_only x))
      as [[H _]|[_ H]]; [by exfalso; apply H|].
    rewrite H. by vm_compute.
  - destruct (proj1 (format_page_id_raises_iff ascii_tolower_only (py "0123")))
      as [[_ H]|[H _]]; [exact H | discriminate H].
Defined.

(** * Further properties *)

(** ** Converter: what its blocks look like *)

Lemma rstrip_nil_iff (l : pystr) :
  rstrip l = [] <-> strip_truthy l = false.
Proof.
  unfold strip_truthy. induction l as [|c t IH]; [done|].
  rewrite rstrip_cons. cbn [existsb].
  destruct (rstrip t) as [|x r] eqn:E.
  - destruct (Py_UNICODE_ISSPACE c); simpl.
    + split; [intros _; by apply IH | done].
    + split; done.
  - split; [done|]. intros H. apply orb_false_iff in H as [_ H].
    by apply IH in H.
Qed.

Lemma rstrip_head (c : codepoint) (t : pystr) :
  rstrip (c :: t) = [] \/ exists t', rstrip (c :: t) = c :: t'.
Proof.
  rewrite rstrip_cons. destruct (rstrip t) as [|x r].
  - destruct (Py_UNICODE_ISSPACE c); [by left | right; by exists []].
  - right. by eexists.
Qed.

(** What follows a marker that ends in white space, in a clean line, is
    itself clean. *)
Lemma clean_line_tail (a : pystr) (w : codepoint) (c : pystr) :
  clean_line ((a ++ [w]) ++ c) -> Py_UNICODE_ISSPACE w = true -> clean_line c.
Proof.
  intros (_ & Hs & Hnl) Hw.
  assert (Hc : c ≠ []).
  { apply (rstrip_tail_nonempty a w); [|done]. by rewrite <- app_assoc in Hs. }
  split; [done|]. split.
  - by apply (rstrip_tail (a ++ [w])).
  - by apply Forall_app in Hnl as [_ Hnl].
Qed.

Section ConverterBlocks.
Variable nd : codepoint -> bool.

Lemma line_to_block_None (l : pystr) : line_to_block nd l = None <-> l = [].
Proof.
  split; [|by intros ->]. unfold line_to_block.
  destruct (decide (l = [])) as [E|E]; [done|].
  rewrite bool_decide_false by done.
  repeat match goal with
         | |- context [if ?b then _ else _] => destruct b
         end; try done.
  by destruct (match_numbered nd l).
Qed.

Lemma line_to_block_content (l : pystr) (b : block) :
  clean_line l -> line_to_block nd l = Some b -> clean_line (b_content b).
Proof.
  intros Hl Hb. pose proof Hl as (Hne & Hs & Hnl).
  unfold line_to_block in Hb. rewrite bool_decide_false in Hb by done.
  destruct (startswith (py "# ") l) eqn:E1.
  { injection Hb as <-. apply startswith_inv in E1. rewrite E1 in Hl.
    by apply (clean_line_tail [35%N] 32%N). }
  destruct (startswith (py "## ") l) eqn:E2.
  { injection Hb as <-. apply startswith_inv in E2. rewrite E2 in Hl.
    by apply (clean_line_tail [35%N; 35%N] 32%N). }
  destruct (startswith (py "### ") l) eqn:E3.
  { injection Hb as <-. apply startswith_inv in E3. rewrite E3 in Hl.
    by apply (clean_line_tail [35%N; 35%N; 35%N] 32%N). }
  destruct (startswith (py "- ") l || startswith bullet_marker l) eqn:E4.
  { injection Hb as <-. apply orb_true_iff in E4 as [E|E];
      apply startswith_inv in E.
    - rewrite E in Hl. by apply (clean_line_tail [45%N] 32%N).
    - cbn [b_content]. split; [by rewrite E|]. split.
      + apply (rstrip_tail (take 2 l)); [by rewrite take_drop|].
        by rewrite E.
      + by apply Forall_drop. }
  destruct (match_numbered nd l) as [r|] eqn:E5.
  { injection Hb as <-.
    apply match_numbered_Some in E5 as (ds & w & _ & _ & Hw & ->).
    apply (clean_line_tail (ds ++ [Chr.dot]) w); [|done].
    by rewrite <- !app_assoc. }
  by injection Hb as <-.
Qed.

(** X1. The text of every block the converter makes is not empty, holds no
    line feed (U+000A, the one code point the converter splits its input
    at) and does not end in a white-space code point.  Other code points
    that break a line stay in the text: a carriage return inside a line is
    part of the paragraph. *)
Theorem markdown_to_notion_blocks_clean_text (markdown : pystr) :
  Forall (fun b => b_content b ≠ []
                   /\ (forall (p : pystr) (w : codepoint),
                         b_content b = p ++ [w] ->
                         Py_UNICODE_ISSPACE w = false)
                   /\ Forall (fun c => c ≠ Chr.newline) (b_content b))
    (markdown_to_notion_blocks nd markdown)
  /\ markdown_to_notion_blocks nd (py "a" ++ [13%N] ++ py "b")
     = [Block paragraph (py "a" ++ [13%N] ++ py "b")].
Proof.
  split; [|by vm_compute].
  destruct (markdown_to_notion_blocks_lines nd markdown) as (ls & Hls & H2).
  induction H2 as [|l b ls bs Hb _ IH]; [constructor|].
  apply Forall_cons in Hls as [Hl Hls].
  constructor; [|by apply IH].
  destruct (line_to_block_content l b Hl Hb) as (Hne & Hr & Hnl).
  split; [done|]. split; [|done].
  intros p w E. apply (proj2 (rstrip_correct (b_content b)) p w).
  by rewrite Hr.
Qed.

(** X2. The converter makes exactly one block for each line that holds a
    code point other than white space, and none for the other lines; a
    document of white space only gives no block. *)
Theorem markdown_to_notion_blocks_count (markdown : pystr) :
  length (markdown_to_notion_blocks nd markdown)
  = length (filter (fun line => strip_truthy line = true)
              (split_lines markdown))
  /\ (strip_truthy markdown = false ->
      markdown_to_notion_blocks nd markdown = []).
Proof.
  assert (Hcount : forall lines : list pystr,
            length (omap (fun line => line_to_block nd (rstrip line)) lines)
            = length (filter (fun line => strip_truthy line = true) lines)).
  { induction lines as [|l lines IH]; [done|].
    cbn [omap list_omap]. rewrite filter_cons.
    destruct (line_to_block nd (rstrip l)) as [b|] eqn:E.
    - rewrite decide_True; [simpl; by rewrite IH|].
      destruct (strip_truthy l) eqn:Es; [done|].
      apply rstrip_nil_iff in Es. by rewrite Es in E.
    - rewrite decide_False; [exact IH|].
      apply line_to_block_None, rstrip_nil_iff in E. by rewrite E. }
  split; [apply Hcount|].
  intros Hblank. apply length_zero_iff_nil.
  unfold markdown_to_notion_blocks. rewrite Hcount.
  assert (Hall : forall s, strip_truthy s = false ->
            Forall (fun line => strip_truthy line = false) (split_lines s)).
  { clear. unfold strip_truthy. induction s as [|c t IH]; intros H.
    - by repeat constructor.
    - cbn [existsb] in H. apply orb_false_iff in H as [Hc Ht].
      specialize (IH Ht). simpl.
      destruct (c =? Chr.newline)%N; [by constructor|].
      destruct (split_lines t) as [|l ls] eqn:Es;
        [by apply split_lines_nonempty in Es|].
      apply Forall_cons in IH as [Hl Hls].
      constructor; [|done]. simpl. by rewrite Hc. }
  pose proof (Hall markdown Hblank) as Hlines.
  induction Hlines as [|l ls Hl _ IH]; [done|].
  rewrite filter_cons, decide_False; [exact IH|]. by rewrite Hl.
Qed.

(** X3. A line that starts with an ASCII white-space code point (a space, a
    tab) and is not blank becomes a paragraph with the whole line less its
    trailing white space: an indented marker is not a marker. *)
Theorem indented_line_is_paragraph (c : codepoint) (line : pystr) :
  is_ascii c = true -> Py_UNICODE_ISSPACE c = true ->
  Forall (fun x => x ≠ Chr.newline) (c :: line) ->
  strip_truthy line = true ->
  markdown_to_notion_blocks nd (c :: line)
  = [Block paragraph (rstrip (c :: line))].
Proof.
  intros Ha Hw Hnl Hline.
  unfold markdown_to_notion_blocks. rewrite split_lines_one by done.
  cbn [omap list_omap].
  destruct (rstrip_head c line) as [E|(t' & E)].
  { apply rstrip_nil_iff in E. unfold strip_truthy in *. cbn [existsb] in E.
    apply orb_false_iff in E as [_ E]. by rewrite E in Hline. }
  rewrite E.
  assert (Hdec : Py_UNICODE_ISDECIMAL nd c = false).
  { unfold Py_UNICODE_ISDECIMAL. rewrite Ha.
    unfold Py_UNICODE_ISSPACE, is_ascii, is_ascii_digit, in_range in *.
    apply N.ltb_lt in Ha.
    destruct (48 <=? c)%N eqn:H1; [|done]. apply N.leb_le in H1.
    destruct (c <=? 57)%N eqn:H2; [|done]. apply N.leb_le in H2.
    exfalso.
    repeat (apply orb_true_iff in Hw as [Hw|Hw]);
      try (apply andb_true_iff in Hw as [H3%N.leb_le H4%N.leb_le]; lia);
      apply N.eqb_eq in Hw; lia. }
  assert (Hhead : forall (p : pystr) (x : codepoint),
            head p = Some x -> Py_UNICODE_ISSPACE x = false ->
            startswith p (c :: t') = false).
  { intros p x Hp Hx. apply first_differs; rewrite Hp; [done|].
    simpl. intros [= <-]. congruence. }
  unfold line_to_block. rewrite bool_decide_false by done.
  rewrite (Hhead (py "# ") 35%N), (Hhead (py "## ") 35%N),
    (Hhead (py "### ") 35%N), (Hhead (py "- ") 45%N),
    (Hhead bullet_marker 0x201A%N) by done.
  unfold match_numbered. cbn [re_plus orb]. by rewrite Hdec.
Qed.

End ConverterBlocks.

Lemma indented_line_is_paragraph_witness :
  markdown_to_notion_blocks ascii_decimal_only (py "  - nested item  ")
  = [Block paragraph (py "  - nested item")].
Proof.
  apply (indented_line_is_paragraph ascii_decimal_only 32%N
           (py " - nested item  ")); try done.
  apply (bool_decide_unpack _). by vm_compute.
Defined.

(** ** Reader: what it leaves out *)

(** X4. A listed block with no type, with an empty type, or with no rich
    text adds nothing to the rendering of a page, wherever it stands; and a
    text run without plain text adds nothing to its block's line. *)
Theorem render_blocks_skips (bs1 bs2 : list listed_block) (b : listed_block) :
  (truthy (lb_type b) = false \/ lb_rich_text b = [] ->
   render_blocks (bs1 ++ b :: bs2) = render_blocks (bs1 ++ bs2))
  /\ (forall (runs1 runs2 : list (option pystr)),
        runs1 ++ runs2 ≠ [] ->
        render_block (Listed (lb_id b) (lb_type b) (runs1 ++ None :: runs2))
        = render_block (Listed (lb_id b) (lb_type b) (runs1 ++ runs2))).
Proof.
  split.
  - intros H. unfold render_blocks. rewrite !omap_app. cbn [omap list_omap].
    assert (E : render_block b = None).
    { unfold render_block. destruct H as [-> | ->]; [done|].
      by destruct (truthy (lb_type b)). }
    by rewrite E.
  - intros runs1 runs2 Hne.
    assert (Hc : concat (map (default []) (runs1 ++ None :: runs2))
                 = concat (map (default []) (runs1 ++ runs2))).
    { by rewrite !map_app, !concat_app. }
    unfold render_block. cbn [lb_type lb_rich_text].
    destruct (truthy (lb_type b)); [|done].
    destruct (runs1 ++ runs2) as [|r rs] eqn:E2; [done|].
    destruct (runs1 ++ None :: runs2) as [|r' rs'] eqn:E1;
      [by destruct runs1|].
    by rewrite Hc.
Qed.

(** ** Normaliser: the shape of what it returns *)

(** X5. Whatever the input, an identifier the normaliser returns has 36 code
    points, with hyphens at positions 8, 13, 18 and 23. *)
Theorem format_page_id_shape
    (tl : pystr -> pystr -> codepoint -> codepoint) (x y : pystr) :
  format_page_id tl x = Ok y ->
  length y = 36
  /\ y !! 8 = Some Chr.hyphen /\ y !! 13 = Some Chr.hyphen
  /\ y !! 18 = Some Chr.hyphen /\ y !! 23 = Some Chr.hyphen.
Proof.
  unfold format_page_id.
  destruct (decide (length (lower tl (remove_hyphens x)) = 32)) as [E|E].
  2: { by rewrite bool_decide_true. }
  rewrite bool_decide_false by tauto. intros [= <-].
  destruct (dashed_pieces _ E)
    as (a & b & c & d & e & _ & Ha & Hb & Hc & Hd & He & ->).
  split; [rewrite !length_app; simpl; rewrite !length_app; simpl;
          rewrite !length_app; simpl; rewrite !length_app; simpl; lia|].
  repeat split.
  - rewrite lookup_app_r by lia. by rewrite Ha.
  - rewrite lookup_app_r by lia. rewrite Ha. simpl.
    rewrite lookup_app_r by lia. by rewrite Hb.
  - rewrite lookup_app_r by lia. rewrite Ha. simpl.
    rewrite lookup_app_r by lia. rewrite Hb. simpl.
    rewrite lookup_app_r by lia. by rewrite Hc.
  - rewrite lookup_app_r by lia. rewrite Ha. simpl.
    rewrite lookup_app_r by lia. rewrite Hb. simpl.
    rewrite lookup_app_r by lia. rewrite Hc. simpl.
    rewrite lookup_app_r by lia. by rewrite Hd.
Qed.

Lemma format_page_id_shape_witness :
  let y := py "zzzzzzzz-zzzz-zzzz-zzzz-zzzzzzzzzzzz" in
  length y = 36
  /\ y !! 8 = Some Chr.hyphen /\ y !! 13 = Some Chr.hyphen
  /\ y !! 18 = Some Chr.hyphen /\ y !! 23 = Some Chr.hyphen.
Proof.
  intros y.
  apply (format_page_id_shape ascii_tolower_only
           (py "ZZZZ-ZZZZ-ZZZZ-ZZZZ-ZZZZ-ZZZZ-ZZZZ-ZZZZ") y).
  by vm_compute.
Defined.

(** ** Router: from a branch to a page *)

Section Router.
Variable tl : pystr -> pystr -> codepoint -> codepoint.

Lemma extract_prefix_run (run rest : pystr) :
  run ≠ [] -> Forall (fun c => prefix_char c = true) run ->
  extract_prefix_from_branch tl (run ++ Chr.slash :: rest)
  = Some (map ascii_lower run).
Proof.
  intros Hne Hrun. unfold extract_prefix_from_branch, match_prefix.
  rewrite re_plus_one by apply prefix_char_not_slash.
  rewrite leading_run_stop by done.
  rewrite bool_decide_false by done. rewrite drop_app_length.
  cbn [re_one]. rewrite N.eqb_refl. cbn [option_map fst]. f_equal.
  apply lower_ascii. eapply Forall_impl; [exact Hrun|].
  apply prefix_char_ascii.
Qed.

Lemma ascii_lower_prefix_char (c : codepoint) :
  prefix_char c = true ->
  (is_ascii_lower (ascii_lower c) || is_ascii_digit (ascii_lower c)
   || (ascii_lower c =? Chr.underscore)%N || (ascii_lower c =? Chr.hyphen)%N)
  = true.
Proof.
  unfold prefix_char, ascii_lower, is_ascii_lower, is_ascii_upper,
    is_ascii_digit, in_range, Chr.underscore, Chr.hyphen.
  intros H.
  destruct ((65 <=? c)%N && (c <=? 90)%N) eqn:E.
  - apply andb_true_iff in E as [H1%N.leb_le H2%N.leb_le].
    apply orb_true_iff. left. apply orb_true_iff. left.
    apply orb_true_iff. left.
    apply andb_true_iff. split; apply N.leb_le; lia.
  - by rewrite orb_false_r in H.
Qed.

(** X6. A prefix extracted from a branch name is never empty and holds only
    lowercase ASCII letters, digits, underscores and hyphens -- no capital
    letter and no slash; and it does not depend on what follows the first
    slash of the branch name. *)
Theorem extract_prefix_from_branch_shape (branch p : pystr) :
  extract_prefix_from_branch tl branch = Some p ->
  p ≠ []
  /\ Forall (fun c => (is_ascii_lower c || is_ascii_digit c
                       || (c =? Chr.underscore)%N || (c =? Chr.hyphen)%N)
                      = true) p
  /\ exists run rest : pystr,
       branch = run ++ Chr.slash :: rest
       /\ forall rest' : pystr,
            extract_prefix_from_branch tl (run ++ Chr.slash :: rest') = Some p.
Proof.
  intros H. apply extract_prefix_Some in H
    as (run & rest & -> & Hne & Hrun & ->).
  split; [by destruct run|]. split.
  - apply Forall_map. eapply Forall_impl; [exact Hrun|].
    apply ascii_lower_prefix_char.
  - exists run, rest. split; [done|]. intros rest'.
    by apply extract_prefix_run.
Qed.

(** X7. A branch name that starts with letters, digits, underscores or
    hyphens and then a slash is routed to the page the mapping holds for
    those code points in lowercase; when the mapping has no such key, to the
    page of "default"; and when it has neither, the routing fails with an
    error that names the lowercase prefix. *)
Theorem branch_routing (run rest : pystr) (mapping : gmap pystr pystr) :
  run ≠ [] -> Forall (fun c => prefix_char c = true) run ->
  get_page_id_for_prefix
    (extract_prefix_from_branch tl (run ++ Chr.slash :: rest)) mapping
  = match mapping !! map ascii_lower run with
    | Some page => Ok page
    | None =>
        match mapping !! py "default" with
        | Some page => Ok page
        | None =>
            Raise (ValueError
                     (py "No mapping found for prefix '"
                        ++ map ascii_lower run
                        ++ py "' and no default page configured."))
        end
    end.
Proof.
  intros Hne Hrun. rewrite extract_prefix_run by done.
  unfold get_page_id_for_prefix.
  destruct run as [|c run]; [done|]. done.
Qed.

End Router.

Lemma extract_prefix_from_branch_shape_witness :
  let p := py "bug-fix_2" in
  p ≠ []
  /\ Forall (fun c => (is_ascii_lower c || is_ascii_digit c
                       || (c =? Chr.underscore)%N || (c =? Chr.hyphen)%N)
                      = true) p.
Proof.
  intros p.
  destruct (extract_prefix_from_branch_shape ascii_tolower_only
              (py "BUG-Fix_2/Login/Page") p) as (H1 & H2 & _);
    [by vm_compute|].
  by split.
Defined.

Lemma branch_routing_witness :
  let m : gmap pystr pystr :=
    <[py "feat" := py "P1"]> (<[py "default" := py "P0"]> ∅) in
  get_page_id_for_prefix
    (extract_prefix_from_branch ascii_tolower_only (py "FEAT/login")) m
  = Ok (py "P1")
  /\ get_page_id_for_prefix
       (extract_prefix_from_branch ascii_tolower_only (py "chore/deps")) m
     = Ok (py "P0").
Proof.
  intros m. split.
  - apply (branch_routing ascii_tolower_only (py "FEAT") (py "login") m);
      [done|]. apply (bool_decide_unpack _). by vm_compute.
  - apply (branch_routing ascii_tolower_only (py "chore") (py "deps") m);
      [done|]. apply (bool_decide_unpack _). by vm_compute.
Defined.

(** ** Updater: batches and failures *)

(** X8. The new blocks are appended in as many batches as the number of
    blocks divided by 100, rounded up -- none for no block; every batch but
    the last holds exactly 100 blocks, and the last holds the rest. *)
Theorem batches_shape (new_blocks : list block) :
  length (batches new_blocks) = (length new_blocks + 99) / 100
  /\ (new_blocks = [] -> batches new_blocks = [])
  /\ (forall (i : nat) (batch : list block),
        batches new_blocks !! i = Some batch ->
        batch = take 100 (drop (i * 100) new_blocks)
        /\ (S i < length (batches new_blocks) -> length batch = 100)
        /\ (S i = length (batches new_blocks) ->
            length batch = length new_blocks - i * 100)).
Proof.
  assert (Hlen : length (batches new_blocks) = (length new_blocks + 99) / 100).
  { by rewrite batches_eq, length_map, length_seq. }
  split; [exact Hlen|]. split; [by intros ->|].
  intros i batch Hi. rewrite Hlen.
  rewrite batches_eq, list_lookup_fmap in Hi.
  destruct (seq 0 ((length new_blocks + 99) / 100) !! i) as [k|] eqn:Hk;
    [|done].
  apply lookup_seq in Hk as [-> Hk]. simpl in Hi. injection Hi as <-.
  pose proof (Nat.div_mod_eq (length new_blocks + 99) 100).
  pose proof (Nat.mod_upper_bound (length new_blocks + 99) 100).
  split; [done|].
  split; intros; rewrite length_take, length_drop; lia.
Qed.

Lemma for_each_app {A : Type} (f : A -> M unit) (l1 l2 : list A) (w : world) :
  for_each f (l1 ++ l2) w
  = bind (for_each f l1) (fun _ => for_each f l2) w.
Proof.
  revert w. induction l1 as [|a l1 IH]; intros w; [done|].
  cbn [app for_each]. unfold bind.
  destruct (f a w) as [[[]|e] w1]; [|done].
  rewrite IH. by unfold bind.
Qed.

Lemma delete_all_blocks_run (page_id : pystr) (status : N) (listing : body)
    (ids : list pystr) (ds rest : list reply) (lg : list (request * reply)) :
  in_range 400 599 status = false ->
  map lb_id (results listing) = map Some ids ->
  length ds = length ids ->
  Forall (fun r => r ≠ NetworkError) ds ->
  delete_all_blocks page_id (World (Http status listing :: ds ++ rest) lg)
  = (Ok tt,
     World rest
       (lg ++ (GetChildren page_id None None, Http status listing)
           :: zip (map DeleteBlock ids) ds)).
Proof.
  intros Hst Hids Hlen Hds.
  unfold delete_all_blocks. unfold bind at 1. rewrite http_next.
  unfold bind at 1. unfold raise_for_status at 1. cbn [fst snd].
  rewrite Hst. unfold ret at 1.
  rewrite (delete_loop _ ids ds _ _ Hids Hlen Hds).
  by rewrite <- app_assoc.
Qed.

(** X9. When the listing request of a page replacement fails -- the
    connection breaks, or the status is in 400..599 -- the replacement raises
    at once: no block is deleted, nothing is appended, and no further reply
    is taken. *)
Theorem update_notion_page_listing_failure
    (page_id : pystr) (new_blocks : list block) (r : reply)
    (rest : list reply) (lg : list (request * reply)) :
  match r with
  | NetworkError => True
  | Http status _ => in_range 400 599 status = true
  end ->
  update_notion_page page_id new_blocks (World (r :: rest) lg)
  = (Raise (match r with
            | NetworkError => ConnectionError
            | Http status _ => HTTPError status
            end),
     World rest (lg ++ [(GetChildren page_id None None, r)])).
Proof.
  intros Hr. unfold update_notion_page, delete_all_blocks.
  unfold bind at 1. unfold bind at 1. rewrite http_next.
  destruct r as [|st data]; [done|].
  unfold bind at 1. unfold raise_for_status. cbn [fst]. by rewrite Hr.
Qed.

Lemma update_notion_page_listing_failure_witness :
  update_notion_page (py "page") [Block paragraph (py "new")]
    (World [Http 404 (Body [] false None None None)] [])
  = (Raise (HTTPError 404),
     World []
       ([] ++ [(GetChildren (py "page") None None,
                Http 404 (Body [] false None None None))])).
Proof.
  by apply (update_notion_page_listing_failure (py "page")
              [Block paragraph (py "new")]
              (Http 404 (Body [] false None None None)) [] []).
Defined.

(** X10. When a listed block has no identifier, the page replacement raises
    a key error at that block: the blocks listed before it have been
    deleted, the blocks after it have not, and nothing is appended. *)
Theorem update_notion_page_missing_id
    (page_id : pystr) (new_blocks : list block) (status : N) (listing : body)
    (before after : list listed_block) (b : listed_block) (ids : list pystr)
    (ds rest : list reply) (lg : list (request * reply)) :
  in_range 400 599 status = false ->
  results listing = before ++ b :: after ->
  map lb_id before = map Some ids ->
  lb_id b = None ->
  length ds = length ids ->
  Forall (fun r => r ≠ NetworkError) ds ->
  update_notion_page page_id new_blocks
    (World (Http status listing :: ds ++ rest) lg)
  = (Raise (KeyError (py "id")),
     World rest
       (lg ++ (GetChildren page_id None None, Http status listing)
           :: zip (map DeleteBlock ids) ds)).
Proof.
  intros Hst Hres Hids Hb Hlen Hds.
  unfold update_notion_page, delete_all_blocks.
  unfold bind at 1. unfold bind at 1. rewrite http_next.
  unfold bind at 1. unfold raise_for_status at 1. cbn [fst snd].
  rewrite Hst. unfold ret at 1. rewrite Hres, for_each_app.
  unfold bind at 1.
  rewrite (delete_loop _ ids ds _ _ Hids Hlen Hds).
  cbn [for_each]. unfold bind at 1. unfold delete_one, block_id.
  rewrite Hb. unfold bind, raise. by rewrite <- app_assoc.
Qed.

Lemma update_notion_page_missing_id_witness :
  let b1 := Listed (Some (py "b1")) (Some (py "paragraph")) [Some (py "a")] in
  let b2 := Listed None (Some (py "paragraph")) [Some (py "b")] in
  let b3 := Listed (Some (py "b3")) (Some (py "paragraph")) [Some (py "c")] in
  let listing := Body [b1; b2; b3] false None None None in
  let empty := Body [] false None None None in
  update_notion_page (py "page") [Block paragraph (py "new")]
    (World (Http 200 listing :: [Http 200 empty] ++ [Http 200 empty]) [])
  = (Raise (KeyError (py "id")),
     World [Http 200 empty]
       ([] ++ (GetChildren (py "page") None None, Http 200 listing)
           :: zip (map DeleteBlock [py "b1"]) [Http 200 empty])).
Proof.
  intros b1 b2 b3 listing empty.
  apply (update_notion_page_missing_id (py "page") _ 200 listing [b1] [b3] b2
           [py "b1"] [Http 200 empty] [Http 200 empty] []); try done.
  by repeat constructor.
Defined.

(** X11. When the append of a batch fails -- the connection breaks, or the
    status is in 400..599 -- the page replacement raises there: the old
    blocks are deleted, the batches before it are appended, and the batches
    after it are not sent. *)
Theorem update_notion_page_append_failure
    (page_id : pystr) (new_blocks : list block) (status : N) (listing : body)
    (ids : list pystr) (ds : list reply)
    (sent later : list (list block)) (batch : list block)
    (ps : list (N * body)) (r : reply) (rest : list reply)
    (lg : list (request * reply)) :
  in_range 400 599 status = false ->
  map lb_id (results listing) = map Some ids ->
  length ds = length ids ->
  Forall (fun r => r ≠ NetworkError) ds ->
  batches new_blocks = sent ++ batch :: later ->
  length ps = length sent ->
  Forall (fun p => in_range 400 599 (fst p) = false) ps ->
  match r with
  | NetworkError => True
  | Http st _ => in_range 400 599 st = true
  end ->
  update_notion_page page_id new_blocks
    (World (Http status listing :: ds ++ map reply_of ps ++ r :: rest) lg)
  = (Raise (match r with
            | NetworkError => ConnectionError
            | Http st _ => HTTPError st
            end),
     World rest
       (lg ++ (GetChildren page_id None None, Http status listing)
           :: zip (map DeleteBlock ids) ds
           ++ zip (map (PatchChildren page_id) sent) (map reply_of ps)
           ++ [(PatchChildren page_id batch, r)])).
Proof.
  intros Hst Hids Hlen Hds Hb Hlenp Hps Hr.
  unfold update_notion_page. unfold bind at 1.
  rewrite (delete_all_blocks_run _ _ _ ids ds _ _ Hst Hids Hlen Hds).
  rewrite Hb, for_each_app. unfold bind at 1.
  rewrite (patch_loop _ _ ps _ _ Hlenp Hps).
  cbn [for_each]. unfold bind at 1. unfold patch_one at 1.
  unfold bind at 1. rewrite http_next.
  destruct r as [|st data].
  - by rewrite <- !app_assoc.
  - unfold raise_for_status. cbn [fst]. rewrite Hr. unfold raise.
    by rewrite <- !app_assoc.
Qed.

Lemma update_notion_page_append_failure_witness :
  let new_blocks := replicate 250 (Block paragraph (py "x")) in
  let empty := Body [] false None None None in
  let listing := Body [] false None None None in
  fst (update_notion_page (py "page") new_blocks
         (World (Http 200 listing
                   :: [] ++ map reply_of [(200%N, empty)]
                   ++ Http 502 empty :: [Http 200 empty]) []))
  = Raise (HTTPError 502)
  /\ script (snd (update_notion_page (py "page") new_blocks
                    (World (Http 200 listing
                              :: [] ++ map reply_of [(200%N, empty)]
                              ++ Http 502 empty :: [Http 200 empty]) [])))
     = [Http 200 empty].
Proof.
  intros new_blocks empty listing.
  rewrite (update_notion_page_append_failure (py "page") new_blocks 200
             listing [] [] [take 100 new_blocks]
             [take 100 (drop 200 new_blocks)] (take 100 (drop 100 new_blocks))
             [(200%N, empty)] (Http 502 empty) [Http 200 empty] []);
    try done.
  by repeat constructor.
Defined.

(** ** Reader: a failed page *)

Lemma read_pages_failure (page_id : pystr) (pages : list (N * body)) :
  forall (r : reply) (start_cursor : option pystr)
      (blocks : list listed_block) (rest : list reply)
      (lg : list (request * reply)),
    Forall (fun p => in_range 400 599 (fst p) = false
                     /\ has_more (snd p) = true) pages ->
    match r with
    | NetworkError => True
    | Http st _ => in_range 400 599 st = true
    end ->
    exists cursor : option pystr,
      read_pages page_id start_cursor blocks (map reply_of pages ++ r :: rest) lg
      = (Raise (match r with
                | NetworkError => ConnectionError
                | Http st _ => HTTPError st
                end),
         World rest
           (lg ++ zip (cursor_requests page_id start_cursor pages)
                    (map reply_of pages)
               ++ [(GetChildren page_id (Some 100%N) cursor, r)])).
Proof.
  induction pages as [|[st data] pages IH];
    intros r start_cursor blocks rest lg Hpages Hr.
  - exists (if truthy start_cursor then start_cursor else None).
    cbn [app map read_pages cursor_requests zip zip_with].
    destruct r as [|st data]; [done|]. by rewrite Hr.
  - apply Forall_cons in Hpages as [[Hst Hdata] Hpages]. simpl in Hst, Hdata.
    destruct (IH r (next_cursor data) (blocks ++ results data) rest
                (lg ++ [(GetChildren page_id (Some 100%N)
                           (if truthy start_cursor then start_cursor
                            else None), Http st data)]) Hpages Hr)
      as (cursor & E).
    exists cursor.
    cbn [app map read_pages]. unfold reply_of at 1. cbn [fst snd].
    rewrite Hst, Hdata.
    change (reply_of (st, data)) with (Http st data). rewrite E.
    cbn [cursor_requests zip zip_with map snd fst reply_of].
    by rewrite <- !app_assoc.
Qed.

(** X12. When a listing request of the reader fails after any number of
    pages -- the connection breaks, or the status is in 400..599 -- the read
    raises: the blocks of the pages already received are dropped, nothing is
    rendered, and no further reply is taken. *)
Theorem get_notion_page_content_failure
    (page_id : pystr) (pages : list (N * body)) (r : reply)
    (rest : list reply) (lg : list (request * reply)) :
  Forall (fun p => in_range 400 599 (fst p) = false
                   /\ has_more (snd p) = true) pages ->
  match r with
  | NetworkError => True
  | Http st _ => in_range 400 599 st = true
  end ->
  exists cursor : option pystr,
    get_notion_page_content page_id
      (World (map reply_of pages ++ r :: rest) lg)
    = (Raise (match r with
              | NetworkError => ConnectionError
              | Http st _ => HTTPError st
              end),
       World rest
         (lg ++ zip (cursor_requests page_id None pages) (map reply_of pages)
             ++ [(GetChildren page_id (Some 100%N) cursor, r)])).
Proof.
  intros Hpages Hr.
  destruct (read_pages_failure page_id pages r None [] rest lg Hpages Hr)
    as (cursor & E).
  exists cursor. unfold get_notion_page_content.
  apply bind_Raise. unfold get_page_blocks. exact E.
Qed.

Lemma get_notion_page_content_failure_witness :
  let blk := Listed (Some (py "a")) (Some (py "paragraph")) [Some (py "a")] in
  let p1 := (200%N, Body [blk] true (Some (py "c1")) None None) in
  let r := Http 503 (Body [] false None None None) in
  exists cursor : option pystr,
    get_notion_page_content (py "page") (World (map reply_of [p1] ++ r :: []) [])
    = (Raise (HTTPError 503),
       World []
         ([] ++ zip (cursor_requests (py "page") None [p1]) (map reply_of [p1])
             ++ [(GetChildren (py "page") (Some 100%N) cursor, r)])).
Proof.
  intros blk p1 r.
  apply (get_notion_page_content_failure (py "page") [p1] r [] []); [|done].
  by repeat constructor.
Defined.

(** ** Tracker: the row it inserts *)

Lemma before_T_app (d t : pystr) :
  Forall (fun c => c ≠ Chr.capital_T) d ->
  before_T (d ++ Chr.capital_T :: t) = d.
Proof.
  induction 1 as [|c d Hc _ IH]; simpl; [done|].
  apply N.eqb_neq in Hc. by rewrite Hc, IH.
Qed.

Lemma before_T_all (d : pystr) :
  Forall (fun c => c ≠ Chr.capital_T) d -> before_T d = d.
Proof.
  induction 1 as [|c d Hc _ IH]; simpl; [done|].
  apply N.eqb_neq in Hc. by rewrite Hc, IH.
Qed.

(** X13. When the store answers the insert without an error status and with
    an identifier, the tracker returns that identifier, having sent one row:
    the title, author and link of the pull request, the part of its creation
    time before the first "T" as the date, and its prefix -- or "none" when
    the prefix is undefined or empty. *)
Theorem add_pr_to_database_row
    (database_id : pystr) (pr : pr_info) (prefix : option pystr)
    (date time : pystr) (status : N) (data : body) (id : pystr)
    (rest : list reply) (lg : list (request * reply)) :
  pr_created_at pr = date ++ Chr.capital_T :: time ->
  Forall (fun c => c ≠ Chr.capital_T) date ->
  in_range 400 599 status = false ->
  body_id data = Some id ->
  add_pr_to_database database_id pr prefix
    (World (Http status data :: rest) lg)
  = (Ok id,
     World rest
       (lg ++ [(CreatePage database_id
                  (TrackingRow (pr_title pr) (pr_author pr) date
                     (match prefix with
                      | Some (c :: p) => c :: p
                      | _ => py "none"
                      end)
                     (pr_url pr)),
                Http status data)])).
Proof.
  intros Hcreated Hdate Hst Hid.
  unfold add_pr_to_database. unfold bind at 1. rewrite http_next.
  unfold bind at 1. unfold raise_for_status. cbn [fst snd].
  rewrite Hst, Hid, Hcreated, before_T_app by done.
  unfold ret. by destruct prefix as [[|c p]|].
Qed.

Lemma add_pr_to_database_row_witness :
  let pr :=
    PrInfo (py "Add SSO") (py "") (py "https://example.test/pull/7") 7
      (py "org/repo") (py "dev") (py "main") (py "2024-01-02T03:04:05Z")
      (py "2024-01-03T00:00:00Z") in
  let data := Body [] false None (Some (py "row-1")) None in
  add_pr_to_database (py "db") pr None (World (Http 200 data :: []) [])
  = (Ok (py "row-1"),
     World []
       ([] ++ [(CreatePage (py "db")
                  (TrackingRow (py "Add SSO") (py "dev") (py "2024-01-02")
                     (py "none") (py "https://example.test/pull/7")),
                Http 200 data)])).
Proof.
  intros pr data.
  apply (add_pr_to_database_row (py "db") pr None (py "2024-01-02")
           (py "03:04:05Z") 200 data (py "row-1") [] []); try done.
  apply (bool_decide_unpack _). by vm_compute.
Defined.

(** ** Orchestrator: where its requests go, and in which order *)

Lemma extends_check_pr_exists_in_database (Q : request -> Prop)
    (database_id url : pystr) :
  Q (QueryDatabase database_id url 1) ->
  extends Q (check_pr_exists_in_database database_id url).
Proof.
  intros Hq. apply extends_bind; [by apply extends_http|]. intros r.
  apply extends_bind; [apply extends_raise_for_status|].
  intros _. apply extends_ret.
Qed.

Lemma extends_add_pr_to_database (Q : request -> Prop)
    (database_id : pystr) (pr : pr_info) (prefix : option pystr) :
  (forall row, row_link row = pr_url pr -> Q (CreatePage database_id row)) ->
  extends Q (add_pr_to_database database_id pr prefix).
Proof.
  intros Hq. apply extends_bind; [by apply extends_http, Hq|]. intros r.
  apply extends_bind; [apply extends_raise_for_status|]. intros _.
  destruct (body_id (snd r)); [apply extends_ret | apply extends_raise].
Qed.

Lemma extends_synthesize_with_openai_pr (Q : request -> Prop)
    (existing_content : pystr) (pr : pr_info) :
  (forall e d, Q (ChatCompletion e pr d)) ->
  extends Q (synthesize_with_openai existing_content pr).
Proof.
  intros Hq w. unfold synthesize_with_openai.
  apply extends_chat_completion, Hq.
Qed.

(** The last step of [main]. *)
Lemma extends_tracker (Q : request -> Prop) (database : option pystr)
    (pr : pr_info) (prefix : option pystr) :
  (forall db, database = Some db -> db ≠ [] ->
     Q (QueryDatabase db (pr_url pr) 1)
     /\ forall row, row_link row = pr_url pr -> Q (CreatePage db row)) ->
  extends Q
    (if truthy database then
       bind (check_pr_exists_in_database (default [] database) (pr_url pr))
         (fun found =>
            if found then ret tt
            else bind (add_pr_to_database (default [] database) pr prefix)
                   (fun _ => ret tt))
     else ret tt).
Proof.
  intros Hq. destruct database as [[|c db]|]; try apply extends_ret.
  destruct (Hq (c :: db)) as [Hquery Hcreate]; [done|done|].
  cbn [truthy default].
  apply extends_bind; [by apply extends_check_pr_exists_in_database|].
  intros [|]; [apply extends_ret|].
  apply extends_bind; [by apply extends_add_pr_to_database|].
  intros _. apply extends_ret.
Qed.

(** X14. A run whose branch does not resolve to a page, or resolves to an
    identifier the normaliser rejects, raises before any call: it takes no
    reply and logs nothing.  In any other run every listing and append
    request names the normalised page, the call of the text service carries
    the pull request of the event, and the tracker is called only when a
    non-empty database identifier is configured, with that identifier and
    the URL of the pull request. *)
Theorem main_targets
    (nd : codepoint -> bool) (tl : pystr -> pystr -> codepoint -> codepoint)
    (cfg : config) (w : world) :
  let resolved :=
    get_page_id_for_prefix
      (extract_prefix_from_branch tl (pr_branch (event cfg)))
      (page_mapping cfg) in
  match resolved with
  | Raise e => main nd tl cfg w = (Raise e, w)
  | Ok page =>
      match format_page_id tl page with
      | Raise e => main nd tl cfg w = (Raise e, w)
      | Ok pid =>
          exists issued : list (request * reply),
            log (snd (main nd tl cfg w)) = log w ++ issued
            /\ Forall (fun e => targets cfg pid (fst e)) issued
      end
  end.
Proof.
  intros resolved. subst resolved. unfold main.
  destruct (get_page_id_for_prefix _ _) as [page|e]; [|done].
  destruct (format_page_id tl page) as [pid|e] eqn:E.
  2: { unfold bind at 1. unfold lift at 1. unfold bind at 1.
       unfold lift at 1. by rewrite E. }
  unfold bind at 1. unfold lift at 1. unfold bind at 1. unfold lift at 1.
  rewrite E. revert w.
  change (extends (targets cfg pid)
            (bind (get_notion_page_content pid)
               (fun existing_content =>
                  bind (synthesize_with_openai existing_content (event cfg))
                    (fun content =>
                       bind (checked_len content)
                         (fun synthesized_content =>
                            bind (update_notion_page pid
                                    (markdown_to_notion_blocks nd
                                       synthesized_content))
                              (fun _ =>
                                 if truthy (PR_DATABASE_ID cfg) then
                                   bind (check_pr_exists_in_database
                                           (default [] (PR_DATABASE_ID cfg))
                                           (pr_url (event cfg)))
                                     (fun found =>
                                        if found then ret tt
                                        else
                                          bind (add_pr_to_database
                                                  (default []
                                                     (PR_DATABASE_ID cfg))
                                                  (event cfg)
                                                  (extract_prefix_from_branch
                                                     tl
                                                     (pr_branch (event cfg))))
                                            (fun _ => ret tt))
                                 else ret tt)))))).
  apply (extends_bind (targets cfg pid)).
  { by apply extends_get_notion_page_content. }
  intros existing_content.
  apply extends_bind; [by apply extends_synthesize_with_openai_pr|].
  intros content.
  apply extends_bind; [apply extends_checked_len|].
  intros synthesized_content.
  apply extends_bind; [by apply extends_update_notion_page|].
  intros _. apply extends_tracker.
  intros db Hdb Hne. split; [done|]. by intros row Hrow.
Qed.

Lemma extends_reader (Q : request -> Prop) (page_id : pystr) :
  (forall cursor, Q (GetChildren page_id (Some 100%N) cursor)) ->
  extends Q (get_notion_page_content page_id).
Proof.
  intros Hq. apply extends_bind; [|intros; apply extends_ret].
  intros [pending lg]. unfold get_page_blocks. cbn [script log].
  revert lg. generalize (@nil listed_block). generalize (@None (list N)).
  induction pending as [|r rest IH]; intros start_cursor blocks lg.
  - exists []. by rewrite app_nil_r.
  - cbn [read_pages].
    set (e := (GetChildren page_id (Some 100%N)
                 (if truthy start_cursor then start_cursor else None), r)).
    assert (He : Forall (fun e => Q (fst e)) [e]).
    { constructor; [apply Hq | constructor]. }
    destruct r as [|st data]; [by exists [e]|].
    destruct (in_range 400 599 st); [by exists [e]|].
    destruct (has_more data); [|by exists [e]].
    destruct (IH (next_cursor data) (blocks ++ results data) (lg ++ [e]))
      as (i & E & F).
    exists (e :: i). rewrite E, <- app_assoc. split; [done|].
    constructor; [apply Hq | exact F].
Qed.

Lemma chat_completion_attempts (prompt : request) (pending : list reply) :
  forall (retries : nat) (lg : list (request * reply)),
    exists chats : list (request * reply),
      log (snd (chat_completion retries prompt pending lg)) = lg ++ chats
      /\ Forall (fun e => fst e = prompt) chats
      /\ length chats <= S retries
      /\ forall content : option pystr,
           fst (chat_completion retries prompt pending lg) = Ok content ->
           exists (st : N) (data : body),
             last chats = Some (prompt, Http st data)
             /\ in_range 200 299 st = true /\ content = completion data.
Proof.
  induction pending as [|r rest IH]; intros retries lg.
  - exists []. rewrite app_nil_r. repeat split; [constructor | simpl; lia|].
    intros content H. discriminate H.
  - cbn [chat_completion].
    set (e := (prompt, r)).
    assert (Hstop : forall err : exn,
              exists chats : list (request * reply),
                log (snd (@Raise (option pystr) err, World rest (lg ++ [e])))
                = lg ++ chats
                /\ Forall (fun x => fst x = prompt) chats
                /\ length chats <= S retries
                /\ forall content : option pystr,
                     fst (@Raise (option pystr) err, World rest (lg ++ [e]))
                     = Ok content ->
                     exists (st : N) (data : body),
                       last chats = Some (prompt, Http st data)
                       /\ in_range 200 299 st = true
                       /\ content = completion data).
    { intros err. exists [e]. repeat split; [by repeat constructor
                                            | simpl; lia|].
      intros content H. discriminate H. }
    assert (Hagain : exists chats : list (request * reply),
              log (snd match retries with
                       | S retries' =>
                           chat_completion retries' prompt rest (lg ++ [e])
                       | O => (Raise APIError, World rest (lg ++ [e]))
                       end) = lg ++ chats
              /\ Forall (fun x => fst x = prompt) chats
              /\ length chats <= S retries
              /\ forall content : option pystr,
                   fst match retries with
                       | S retries' =>
                           chat_completion retries' prompt rest (lg ++ [e])
                       | O => (Raise APIError, World rest (lg ++ [e]))
                       end = Ok content ->
                   exists (st : N) (data : body),
                     last chats = Some (prompt, Http st data)
                     /\ in_range 200 299 st = true
                     /\ content = completion data).
    { destruct retries as [|retries']; [apply Hstop|].
      destruct (IH retries' (lg ++ [e])) as (chats & E & F & L & H).
      exists (e :: chats). rewrite E, <- app_assoc.
      repeat split; [by constructor | simpl; lia|].
      intros content Hc. destruct (H content Hc) as (st & data & Hl & ?).
      exists st, data. split; [|done].
      destruct chats as [|x chats]; [done|]. exact Hl. }
    destruct r as [|st data]; [exact Hagain|].
    destruct (in_range 200 299 st) eqn:Hst.
    + exists [e]. repeat split; [by repeat constructor | simpl; lia|].
      intros content [= <-]. by exists st, data.
    + destruct (should_retry st); [exact Hagain | apply Hstop].
Qed.

(** X15. In every run the exchanges are, in order: listing requests of the
    reader; then the attempts of the call of the text service, at most three;
    and anything else -- the listing for deletion, deletes, appends, the
    tracker -- only after the last attempt was answered with a status in
    200..299 and a text.  A page is never touched before a synthesis
    succeeded. *)
Theorem main_writes_after_synthesis
    (nd : codepoint -> bool) (tl : pystr -> pystr -> codepoint -> codepoint)
    (cfg : config) (w : world) :
  exists issued : list (request * reply),
    log (snd (main nd tl cfg w)) = log w ++ issued
    /\ guarded_by_synthesis issued.
Proof.
  assert (Hnone : forall reads : list (request * reply),
            Forall (fun e => is_paged_listing (fst e) = true) reads ->
            guarded_by_synthesis reads).
  { intros reads Hr. exists reads, [], []. rewrite !app_nil_r.
    repeat split; [done | constructor | simpl; lia | done]. }
  unfold main.
  destruct (get_page_id_for_prefix _ _) as [page|e].
  2: { exists []. split; [by rewrite app_nil_r | by apply Hnone]. }
  unfold bind at 1. unfold lift at 1.
  destruct (format_page_id tl page) as [pid|e].
  2: { exists []. unfold bind, lift.
       split; [by rewrite app_nil_r | by apply Hnone]. }
  unfold bind at 1. unfold lift at 1. unfold bind at 1.
  destruct (extends_reader (fun r => is_paged_listing r = true) pid
              ltac:(done) w) as (reads & Er & Fr).
  destruct (get_notion_page_content pid w) as [[existing|e] w1];
    simpl in Er.
  2: { exists reads. split; [done | by apply Hnone]. }
  unfold bind at 1. unfold synthesize_with_openai at 1.
  match goal with
  | |- context [chat_completion max_retries ?p (script w1) (log w1)] =>
      set (prompt := p);
      destruct (chat_completion_attempts prompt (script w1) max_retries
                  (log w1)) as (chats & Ec & Fc & Lc & Hc)
  end.
  assert (Fchat : Forall (fun e => is_chat (fst e) = true) chats).
  { eapply Forall_impl; [exact Fc|]. by intros [r rp] ->. }
  assert (Hstop : guarded_by_synthesis (reads ++ chats)).
  { exists reads, chats, []. rewrite app_nil_r. by repeat split. }
  destruct (chat_completion max_retries prompt (script w1) (log w1))
    as [[content|e] w2]; simpl in Ec.
  2: { exists (reads ++ chats). simpl. by rewrite Ec, Er, <- app_assoc. }
  destruct (Hc content eq_refl) as (st & data & Hlast & Hst & ->).
  unfold bind at 1.
  destruct (completion data) as [text|] eqn:Htext.
  2: { exists (reads ++ chats). cbn [checked_len raise snd].
       simpl. by rewrite Ec, Er, <- app_assoc. }
  cbn [checked_len]. unfold ret at 1.
  destruct (extends_bind (fun _ => True) _ _
              (extends_update_notion_page (fun _ => True) pid
                 (markdown_to_notion_blocks nd text)
                 ltac:(done) ltac:(done) ltac:(done))
              (fun _ => extends_tracker (fun _ => True)
                          (PR_DATABASE_ID cfg) (event cfg)
                          (extract_prefix_from_branch tl
                             (pr_branch (event cfg)))
                          ltac:(done)) w2) as (more & Em & _).
  exists (reads ++ chats ++ more). rewrite Em, Ec, Er, <- !app_assoc.
  split; [done|]. exists reads, chats, more. repeat split; try done.
  intros _. unfold prompt in Hlast. eexists _, _, _, st, data, text.
  by repeat split.
Qed.

(** ** Orchestrator: a whole run *)

Lemma get_notion_page_content_run (page_id : pystr) (pages : list (N * body))
    (last : N * body) (rest : list reply) (lg : list (request * reply)) :
  Forall (fun p => in_range 400 599 (fst p) = false
                   /\ has_more (snd p) = true) pages ->
  in_range 400 599 (fst last) = false ->
  has_more (snd last) = false ->
  get_notion_page_content page_id
    (World (map reply_of (pages ++ [last]) ++ rest) lg)
  = (Ok (render_blocks
           (concat (map (fun p => results (snd p)) (pages ++ [last])))),
     World rest
       (lg ++ zip (cursor_requests page_id None (pages ++ [last]))
                (map reply_of (pages ++ [last])))).
Proof.
  intros Hpages Hlast Hmore. unfold get_notion_page_content.
  erewrite bind_Ok; [reflexivity|].
  unfold get_page_blocks. cbn [script log].
  by rewrite (read_pages_all page_id pages last None [] rest lg).
Qed.

Lemma update_notion_page_run (page_id : pystr) (new_blocks : list block)
    (status : N) (listing : body) (ids : list pystr)
    (ds : list reply) (ps : list (N * body)) (rest : list reply)
    (lg : list (request * reply)) :
  in_range 400 599 status = false ->
  map lb_id (results listing) = map Some ids ->
  length ds = length ids ->
  Forall (fun r => r ≠ NetworkError) ds ->
  length ps = length (batches new_blocks) ->
  Forall (fun p => in_range 400 599 (fst p) = false) ps ->
  update_notion_page page_id new_blocks
    (World (Http status listing :: ds ++ map reply_of ps ++ rest) lg)
  = (Ok tt,
     World rest
       (lg ++ (GetChildren page_id None None, Http status listing)
           :: zip (map DeleteBlock ids) ds
           ++ zip (map (PatchChildren page_id) (batches new_blocks))
                (map reply_of ps))).
Proof.
  intros Hst Hids Hlen Hds Hlenp Hps.
  unfold update_notion_page. unfold bind at 1.
  rewrite (delete_all_blocks_run _ _ _ ids ds _ _ Hst Hids Hlen Hds).
  rewrite (patch_loop _ _ ps rest _ Hlenp Hps).
  by rewrite <- !app_assoc.
Qed.

(** X16. A whole run without tracking database, when every call succeeds:
    the branch resolves to a page; the reader takes all the pages of the
    listing; the text service is called once, with the rendering of the
    blocks read (or the placeholder when it is blank) and the body of the
    pull request (or its placeholder), and answers with a text; the page is
    cleared and the blocks converted from that text are appended.  The run
    returns, having taken exactly these replies, and the log holds these
    exchanges in this order. *)
Theorem main_run
    (nd : codepoint -> bool) (tl : pystr -> pystr -> codepoint -> codepoint)
    (cfg : config) (page pid : pystr)
    (pages : list (N * body)) (last : N * body)
    (chat_status : N) (chat_data : body) (text : pystr)
    (status : N) (listing : body) (ids : list pystr)
    (ds : list reply) (ps : list (N * body)) (rest : list reply)
    (lg : list (request * reply)) :
  get_page_id_for_prefix
    (extract_prefix_from_branch tl (pr_branch (event cfg))) (page_mapping cfg)
  = Ok page ->
  format_page_id tl page = Ok pid ->
  Forall (fun p => in_range 400 599 (fst p) = false
                   /\ has_more (snd p) = true) pages ->
  in_range 400 599 (fst last) = false ->
  has_more (snd last) = false ->
  in_range 200 299 chat_status = true ->
  completion chat_data = Some text ->
  in_range 400 599 status = false ->
  map lb_id (results listing) = map Some ids ->
  length ds = length ids ->
  Forall (fun r => r ≠ NetworkError) ds ->
  length ps = length (batches (markdown_to_notion_blocks nd text)) ->
  Forall (fun p => in_range 400 599 (fst p) = false) ps ->
  truthy (PR_DATABASE_ID cfg) = false ->
  let existing :=
    render_blocks (concat (map (fun p => results (snd p)) (pages ++ [last]))) in
  let new_blocks := markdown_to_notion_blocks nd text in
  main nd tl cfg
    (World (map reply_of (pages ++ [last])
              ++ Http chat_status chat_data
              :: Http status listing :: ds ++ map reply_of ps ++ rest) lg)
  = (Ok tt,
     World rest
       (lg ++ zip (cursor_requests pid None (pages ++ [last]))
                (map reply_of (pages ++ [last]))
           ++ (ChatCompletion
                 (if strip_truthy existing then existing
                  else py "(Page is currently empty)")
                 (event cfg)
                 (if strip_truthy (pr_body (event cfg))
                  then pr_body (event cfg)
                  else py "(No description provided)"),
               Http chat_status chat_data)
           :: (GetChildren pid None None, Http status listing)
           :: zip (map DeleteBlock ids) ds
           ++ zip (map (PatchChildren pid) (batches new_blocks))
                (map reply_of ps))).
Proof.
  intros Hpage Hpid Hpages Hlast Hmore Hchat Htext Hst Hids Hlen Hds Hlenp Hps
    Hdb existing new_blocks.
  unfold main. rewrite Hpage. unfold bind at 1. unfold lift at 1.
  rewrite Hpid. unfold bind at 1. unfold lift at 1.
  unfold bind at 1.
  rewrite (get_notion_page_content_run pid pages last _ lg Hpages Hlast Hmore).
  fold existing. unfold bind at 1.
  unfold synthesize_with_openai at 1. cbn [script log chat_completion].
  rewrite Hchat, Htext. unfold bind at 1. cbn [checked_len]. unfold ret at 1.
  fold new_blocks. unfold bind at 1.
  rewrite (update_notion_page_run pid new_blocks status listing ids ds ps rest
             _ Hst Hids Hlen Hds Hlenp Hps).
  rewrite Hdb. unfold ret. by rewrite <- !app_assoc.
Qed.

Lemma main_run_witness :
  let pr :=
    PrInfo (py "Add SSO") (py "Adds single sign-on.")
      (py "https://example.test/pull/7") 7 (py "org/repo") (py "dev")
      (py "feat/login") (py "2024-01-02T03:04:05Z") (py "2024-01-02T03:04:05Z") in
  let cfg :=
    Config (<[py "feat" := py "ABCDEF0123456789abcdef0123456789"]> ∅) pr None in
  let pid := py "abcdef01-2345-6789-abcd-ef0123456789" in
  let b1 := Listed (Some (py "b1")) (Some (py "heading_1")) [Some (py "Login")] in
  let b2 := Listed (Some (py "b2")) (Some (py "paragraph")) [Some (py "Old text")] in
  let p1 := (200%N, Body [b1] true (Some (py "c1")) None None) in
  let p2 := (200%N, Body [b2] false None None None) in
  let text :=
    py "# Login" ++ [10%N] ++ py "Old text" ++ [10%N] ++ [10%N]
      ++ py "## Recent Updates" ++ [10%N] ++ py "- PR 7: Add SSO" in
  let chat := Body [] false None None (Some text) in
  let listing := Body [b1; b2] false None None None in
  let empty := Body [] false None None None in
  let new_blocks :=
    [Block heading_1 (py "Login"); Block paragraph (py "Old text");
     Block heading_2 (py "Recent Updates");
     Block bulleted_list_item (py "PR 7: Add SSO")] in
  main ascii_decimal_only ascii_tolower_only cfg
    (World [Http 200 (snd p1); Http 200 (snd p2); Http 200 chat;
            Http 200 listing; Http 204 empty; Http 204 empty; Http 200 empty]
       [])
  = (Ok tt,
     World []
       [(GetChildren pid (Some 100%N) None, Http 200 (snd p1));
        (GetChildren pid (Some 100%N) (Some (py "c1")), Http 200 (snd p2));
        (ChatCompletion (py "# Login" ++ [10%N] ++ py "Old text") pr
           (py "Adds single sign-on."), Http 200 chat);
        (GetChildren pid None None, Http 200 listing);
        (DeleteBlock (py "b1"), Http 204 empty);
        (DeleteBlock (py "b2"), Http 204 empty);
        (PatchChildren pid new_blocks, Http 200 empty)]).
Proof.
  intros pr cfg pid b1 b2 p1 p2 text chat listing empty new_blocks.
  apply (main_run ascii_decimal_only ascii_tolower_only cfg
           (py "ABCDEF0123456789abcdef0123456789") pid [p1] p2 200 chat text
           200 listing [py "b1"; py "b2"] [Http 204 empty; Http 204 empty]
           [(200%N, empty)] [] []); try (by vm_compute).
  - by repeat constructor.
  - by repeat constructor.
  - by repeat constructor.
Defined.

(** ** Updater: what it deletes *)

Lemma extends_for_each_in {A : Type} (Q : request -> Prop) (f : A -> M unit)
    (l : list A) :
  (forall a, a ∈ l -> extends Q (f a)) -> extends Q (for_each f l).
Proof.
  induction l as [|a l IH]; intros Hf; simpl.
  - apply extends_ret.
  - apply extends_bind; [apply Hf; by left|]. intros _. apply IH.
    intros a' Ha'. apply Hf. by right.
Qed.

(** X19. A page replacement deletes only blocks that the store listed for
    the page in that very run: every delete request in its exchanges names
    the identifier of a block in the reply to the listing request that
    opens them. *)
Theorem update_notion_page_deletes_listed
    (page_id : pystr) (new_blocks : list block) (w : world) :
  exists issued : list (request * reply),
    log (snd (update_notion_page page_id new_blocks w)) = log w ++ issued
    /\ forall (id : pystr) (rp : reply),
         (DeleteBlock id, rp) ∈ issued ->
         exists (st : N) (data : body) (b : listed_block),
           head issued = Some (GetChildren page_id None None, Http st data)
           /\ b ∈ results data /\ lb_id b = Some id.
Proof.
  destruct w as [[|r rest] lg].
  { exists []. split; [by rewrite app_nil_r|]. intros id rp H.
    by apply elem_of_nil in H. }
  unfold update_notion_page, delete_all_blocks.
  unfold bind at 1. unfold bind at 1. rewrite http_next.
  assert (Hone : forall (id : pystr) (rp : reply),
            (DeleteBlock id, rp) ∈ [(GetChildren page_id None None, r)] ->
            False).
  { intros id rp H. apply list_elem_of_singleton in H. discriminate H. }
  destruct r as [|st data].
  { eexists. split; [reflexivity|]. intros id rp H. by apply Hone in H. }
  unfold bind at 1. unfold raise_for_status at 1. cbn [fst snd].
  destruct (in_range 400 599 st).
  { eexists. split; [reflexivity|]. intros id rp H. by apply Hone in H. }
  unfold ret at 1.
  set (Q := fun r : request =>
              match r with
              | DeleteBlock id =>
                  exists b : listed_block, b ∈ results data /\ lb_id b = Some id
              | _ => True
              end).
  set (w1 := World rest (lg ++ [(GetChildren page_id None None,
                                  Http st data)])).
  assert (Hext : extends Q
            (bind (for_each delete_one (results data))
               (fun _ => for_each (patch_one page_id) (batches new_blocks)))).
  { apply extends_bind.
    - apply extends_for_each_in. intros b Hb. unfold delete_one, block_id.
      destruct (lb_id b) as [id|] eqn:Hid.
      + change (extends Q (bind (http (DeleteBlock id)) (fun _ => ret tt))).
        apply extends_bind; [|intros; apply extends_ret].
        apply extends_http. by exists b.
      + change (extends Q (@raise unit (KeyError (py "id")))).
        apply extends_raise.
    - intros _. apply extends_for_each. intros batch.
      apply extends_bind; [by apply extends_http|].
      apply extends_raise_for_status. }
  destruct (Hext w1) as (more & Em & Fm). unfold bind at 1 in Em.
  exists ((GetChildren page_id None None, Http st data) :: more). rewrite Em.
  split; [subst w1; cbn [log]; by rewrite <- app_assoc|].
  intros id rp Hin. apply elem_of_cons in Hin as [Heq|Hin]; [discriminate Heq|].
  rewrite Forall_forall in Fm. apply Fm in Hin as (b & Hb & Hid).
  by exists st, data, b.
Qed.

(** * The two numeric utilities *)

(** The loop answers whether no number [i], [i + 2], [i + 4], ... whose
    square is at most [n] divides [n], whenever the bound is large enough. *)
Lemma is_prime_loop_spec (fuel : nat) (n i : Z) :
  (1 < i)%Z -> Z.to_nat (n - i) < fuel ->
  is_prime_loop fuel n i = true <->
  forall k : Z,
    (0 <= k)%Z -> ((i + 2 * k) * (i + 2 * k) <= n)%Z ->
    (n mod (i + 2 * k))%Z ≠ 0%Z.
Proof.
  revert i. induction fuel as [|fuel IH]; intros i Hi Hfuel; [lia|].
  cbn [is_prime_loop].
  destruct (Z.leb_spec (i * i) n) as [Hle|Hgt].
  - destruct (Z.eqb_spec (n mod i) 0) as [Hdiv|Hndiv].
    + split; [done|]. intros H. exfalso. apply (H 0%Z); [lia| |].
      * replace (i + 2 * 0)%Z with i by lia. lia.
      * by replace (i + 2 * 0)%Z with i by lia.
    + assert (Hi2 : (2 * i <= n)%Z) by nia. rewrite IH by lia. split.
      * intros H k Hk Hkk.
        destruct (decide (k = 0%Z)) as [->|Hk0].
        { by replace (i + 2 * 0)%Z with i by lia. }
        replace (i + 2 * k)%Z with (i + 2 + 2 * (k - 1))%Z in * by lia.
        apply H; [lia | done].
      * intros H k Hk Hkk.
        replace (i + 2 + 2 * k)%Z with (i + 2 * (k + 1))%Z in * by lia.
        apply H; [lia | done].
  - split; [|done]. intros _ k Hk Hkk. nia.
Qed.

Lemma odd_from_three (a : Z) :
  (1 < a)%Z -> (a mod 2)%Z ≠ 0%Z ->
  exists k : Z, (0 <= k)%Z /\ a = (3 + 2 * k)%Z.
Proof.
  intros Ha Hodd. exists ((a - 3) / 2)%Z.
  pose proof (Z.mod_pos_bound a 2 ltac:(lia)).
  pose proof (Z.div_mod a 2 ltac:(lia)).
  assert (E : (a - 3 = 2 * (a / 2 - 1))%Z) by lia.
  rewrite E, (Z.mul_comm 2), Z.div_mul by lia. lia.
Qed.

(** X17. [is_prime] decides primality: for every integer [n], negative ones
    included, it returns true exactly when [n] is greater than 1 and no
    number strictly between 1 and [n] divides it. *)
Theorem is_prime_correct (n : Z) :
  is_prime n = true <->
  (1 < n)%Z /\ forall d : Z, (1 < d < n)%Z -> ¬ (d | n)%Z.
Proof.
  unfold is_prime.
  destruct (Z.ltb_spec n 2) as [Hlt|Hge].
  { split; [done | lia]. }
  destruct (Z.eqb_spec n 2) as [->|Hne].
  { split; [|done]. intros _. split; [lia|]. intros d Hd. lia. }
  destruct (Z.eqb_spec (n mod 2) 0) as [Heven|Hodd].
  { split; [done|]. intros [_ Hp]. exfalso. apply (Hp 2%Z); [lia|].
    apply Z.mod_divide; [lia | done]. }
  rewrite is_prime_loop_spec by lia. split.
  - intros H. split; [lia|]. intros d Hd [e He].
    assert (Hsmall : exists a : Z, (1 < a)%Z /\ (a * a <= n)%Z /\ (a | n)%Z).
    { destruct (Z_le_gt_dec d e).
      - exists d. repeat split; [lia | nia | by exists e].
      - exists e. repeat split; [nia | nia | exists d; lia]. }
    destruct Hsmall as (a & Ha1 & Ha2 & Ha3).
    destruct (odd_from_three a Ha1) as (k & Hk & ->).
    { intros E. apply Hodd. apply Z.mod_divide; [lia|].
      apply Z.mod_divide in E; [|lia]. by apply Z.divide_trans with a. }
    apply (H k Hk Ha2). apply Z.mod_divide; [lia | done].
  - intros [_ Hp] k Hk Hkk Hmod.
    apply Z.mod_divide in Hmod; [|lia].
    apply (Hp (3 + 2 * k)%Z); [nia | done].
Qed.

(** The values the script prints for its test numbers. *)
Example is_prime_test_numbers :
  map is_prime [1; 2; 3; 4; 5; 10; 11; 17; 20; 23; 29; 100; 101]%Z
  = [false; true; true; false; true; false; true; true; false; true; true;
     false; true].
Proof. by vm_compute. Qed.

(** X18. [fizzbuzz n] has one entry for each number from 1 to [n], in order,
    and none when [n] is not positive.  The entry of [i] is "FizzBuzz"
    exactly when 3 and 5 both divide [i], "Fizz" exactly when 3 does and 5
    does not, "Buzz" exactly when 5 does and 3 does not, and the number [i]
    itself exactly when neither does. *)
Theorem fizzbuzz_entries (n : Z) :
  length (fizzbuzz n) = Z.to_nat n
  /\ forall i : Z,
       (1 <= i <= n)%Z ->
       exists item : fizz_item,
         fizzbuzz n !! Z.to_nat (i - 1) = Some item
         /\ (item = Word (py "FizzBuzz") <-> (3 | i)%Z /\ (5 | i)%Z)
         /\ (item = Word (py "Fizz") <-> (3 | i)%Z /\ ¬ (5 | i)%Z)
         /\ (item = Word (py "Buzz") <-> ¬ (3 | i)%Z /\ (5 | i)%Z)
         /\ (item = Number i <-> ¬ (3 | i)%Z /\ ¬ (5 | i)%Z).
Proof.
  unfold fizzbuzz. split; [by rewrite length_map, length_seqZ|].
  intros i Hi. exists (fizzbuzz_item i). split.
  { rewrite list_lookup_fmap, lookup_seqZ_lt by lia. simpl.
    f_equal. f_equal. lia. }
  assert (H15 : (i mod 15)%Z = 0%Z <-> (3 | i)%Z /\ (5 | i)%Z).
  { rewrite Z.mod_divide by lia. split.
    - intros [k ->]. split; [exists (k * 5)%Z | exists (k * 3)%Z]; lia.
    - intros [[a Ha] [b Hb]]. exists (2 * b - a)%Z. lia. }
  assert (H3 : (i mod 3)%Z = 0%Z <-> (3 | i)%Z) by (apply Z.mod_divide; lia).
  assert (H5 : (i mod 5)%Z = 0%Z <-> (5 | i)%Z) by (apply Z.mod_divide; lia).
  unfold fizzbuzz_item.
  destruct (Z.eqb_spec (i mod 15) 0) as [E15|E15];
    [|destruct (Z.eqb_spec (i mod 3) 0) as [E3|E3];
      [|destruct (Z.eqb_spec (i mod 5) 0) as [E5|E5]]].
  - apply H15 in E15 as [? ?]. repeat split; try done; tauto.
  - apply H3 in E3. assert (¬ (5 | i)%Z) by tauto.
    repeat split; try done; tauto.
  - apply H5 in E5. assert (¬ (3 | i)%Z) by tauto.
    repeat split; try done; tauto.
  - assert (¬ (3 | i)%Z) by tauto. assert (¬ (5 | i)%Z) by tauto.
    repeat split; try done; tauto.
Qed.
